(** * The API client of DataGen ([src/lib/api.ts]): fetch wrapper and upload helper

    The client is asynchronous TypeScript over the platform's [fetch],
    [setTimeout]/[clearTimeout], [AbortController] and [JSON].  It is embedded
    here as functions in a small state-and-exception monad:

    - the state ([world]) holds the one cancellation timer of the call, the
      abort flag of its controller, the clock and the log of the [fetch]
      calls that were issued;
    - a computation ends [Resolved], [Rejected] with the thrown value, or
      stays [Pending] (a promise that never settles);
    - what the platform and the network do is a parameter: the [Platform]
      record ([JSON.parse], [JSON.stringify], the environment variable) and
      the [network] behaviour observed by the one [fetch] of the call. *)

From stdpp Require Import base option numbers strings list gmap pretty.

Local Open Scope string_scope.
Local Open Scope Z_scope.

(** ** JavaScript values *)

(** JSON data, as [JSON.parse] produces it.  Numbers are the integer-valued
    ones; objects keep their entries in property order. *)
#[warnings="-register-all"]
Inductive json : Type :=
| JNull
| JBool (b : bool)
| JNum (n : Z)
| JString (s : string)
| JArray (items : list json)
| JObject (fields : list (string * json)).

(** A value of type [unknown] as the client handles it: [undefined] or data.
    [null] is [Json JNull], a value different from [undefined]. *)
Inductive value : Type :=
| undefined
| Json (j : json).

Coercion Json : json >-> value.

(** ECMAScript [ToBoolean], the test behind [body ? _ : _] and [!text]. *)
Definition truthy (v : value) : bool :=
  match v with
  | undefined => false
  | Json JNull => false
  | Json (JBool b) => b
  | Json (JNum n) => negb (n =? 0)
  | Json (JString s) => negb (String.eqb s EmptyString)
  | Json (JArray _) => true
  | Json (JObject _) => true
  end.

(** [a || b] on strings that may be undefined. *)
Definition or_else (a : option string) (b : string) : string :=
  match a with
  | Some s => if String.eqb s EmptyString then b else s
  | None => b
  end.

(** ** Errors *)

(** [class ApiError extends Error], with its three public fields. *)
Record ApiError : Type := mkApiError {
  status : Z;
  statusText : string;
  data : value
}.

(** The [message] the constructor passes to [super]. *)
Definition ApiError_message (e : ApiError) : string :=
  "API Error: " +:+ pretty (status e) +:+ " " +:+ statusText e.

Definition ApiError_name : string := "ApiError".

(** What the platform throws: an [Error] instance (a [TypeError], a
    [SyntaxError], a [DOMException]) with its [name] and [message], or a value
    that is not an [Error] at all. *)
Inductive exn : Type :=
| Error (name message : string)
| NonError (v : value).

(** What a [catch] clause can receive: [instanceof ApiError] tells the two
    apart. *)
Inductive thrown : Type :=
| Api (e : ApiError)
| Raw (e : exn).

(** ** Requests and responses *)

Record File : Type := mkFile {
  file_name : string;
  file_size : Z
}.

Inductive FormDataEntry : Type :=
| FileEntry (f : File)
| StringEntry (s : string).

(** A [FormData] is the list of its appended parts, in order. *)
Definition FormData : Type := list (string * FormDataEntry).

Inductive BodyInit : Type :=
| TextBody (s : string)
| FormBody (d : FormData).

Inductive AbortSignal : Type :=
| ControllerSignal
| CallerSignal.

(** [HeadersInit]: what a caller may give as [headers].  A plain object holds
    its entries as own properties, under the keys as they are written; a
    [Headers] instance and an array of pairs are given by their entries. *)
Inductive HeadersInit : Type :=
| PlainObject (entries : gmap string string)
| HeadersObject (entries : list (string * string))
| PairsArray (pairs : list (string * string)).

(** A property of the headers object the generic path builds: a string, or,
    when an array of pairs was spread into it, one of the pairs. *)
Inductive header_value : Type :=
| HeaderText (s : string)
| HeaderPair (name value : string).

(** The own enumerable properties of an array of pairs: its elements under
    their indices, from [i] on. *)
Fixpoint index_entries (i : nat) (pairs : list (string * string))
    : gmap string header_value :=
  match pairs with
  | [] => ∅
  | kv :: rest => <[pretty i := HeaderPair (fst kv) (snd kv)]> (index_entries (S i) rest)
  end.

(** What [...init.headers] copies into an object literal: nothing of
    [undefined], the entries of a plain object, nothing of a [Headers]
    instance (its entries are no own properties), and the elements of an
    array under their indices. *)
Definition spread_headers (h : option HeadersInit) : gmap string header_value :=
  match h with
  | None => ∅
  | Some (PlainObject entries) => HeaderText <$> entries
  | Some (HeadersObject _) => ∅
  | Some (PairsArray pairs) => index_entries 0 pairs
  end.

(** The options a caller may pass through ([Omit<RequestInit, 'body'>]);
    [other] stands for the remaining fields ([mode], [cache], [redirect],
    ...). *)
Record InitRest : Type := mkInitRest {
  method : option string;
  headers : option HeadersInit;
  credentials : option string;
  signal : option AbortSignal;
  other : list (string * string)
}.

(** [interface RequestOptions]. *)
Record RequestOptions : Type := mkRequestOptions {
  body : value;
  timeout : option Z;
  init : InitRest
}.

(** [options = {}]. *)
Definition no_init : InitRest := mkInitRest None None None None [].
Definition no_options : RequestOptions := mkRequestOptions undefined None no_init.

(** The second argument of [fetch]. *)
Record RequestInit : Type := mkRequestInit {
  r_method : option string;
  r_headers : option (gmap string header_value);
  r_credentials : option string;
  r_signal : option AbortSignal;
  r_body : option BodyInit;
  r_other : list (string * string)
}.

Record fetch_call : Type := mkFetchCall {
  url : string;
  opts : RequestInit
}.

(** What reading the body of a response comes to: the text, a platform
    exception, or nothing at all when the body never ends. *)
Inductive body_read : Type :=
| BodyText (s : string)
| BodyFails (e : exn)
| BodyStalls.

(** A response whose headers have arrived. *)
Record Response : Type := mkResponse {
  resp_status : Z;
  resp_statusText : string;
  resp_body : body_read
}.

(** [response.ok]: the status is in the range 200-299. *)
Definition ok (r : Response) : bool :=
  (200 <=? resp_status r) && (resp_status r <=? 299).

(** What the network does with the request, and when (milliseconds on the
    clock of the [world]). *)
Inductive network : Type :=
| Responds (at_ms : Z) (r : Response)
| Fails (at_ms : Z) (e : exn)
| Silent.

Record Platform : Type := mkPlatform {
  VITE_API_BASE_URL : option string;
  JSON_parse : string -> string + json;
  JSON_stringify : value -> exn + option string;
  abort_message : string
}.

(** ** The world and the monad *)

Inductive timer_state : Type :=
| Idle
| Armed (deadline : Z)
| Fired
| Cleared.

Record world : Type := mkWorld {
  now : Z;
  timer : timer_state;
  aborted : bool;
  sent : list fetch_call
}.

Definition fresh : world := mkWorld 0 Idle false [].

Inductive outcome (A : Type) : Type :=
| Resolved (a : A)
| Rejected (e : thrown)
| Pending.

Arguments Resolved {A} a.
Arguments Rejected {A} e.
Arguments Pending {A}.

Definition M (A : Type) : Type := world -> outcome A * world.

Definition ret {A} (a : A) : M A := fun w => (Resolved a, w).

Definition bind {A B} (m : M A) (k : A -> M B) : M B := fun w =>
  match m w with
  | (Resolved a, w') => k a w'
  | (Rejected e, w') => (Rejected e, w')
  | (Pending, w') => (Pending, w')
  end.

Definition throw {A} (e : thrown) : M A := fun w => (Rejected e, w).

(** [try { m } catch (error) { h error }], and [promise.catch(h)]. *)
Definition try_catch {A} (m : M A) (h : thrown -> M A) : M A := fun w =>
  match m w with
  | (Rejected e, w') => h e w'
  | r => r
  end.

(** A promise that never settles. *)
Definition never {A} : M A := fun w => (Pending, w).

(** A synchronous platform call that returns or throws. *)
Definition lift {A} (r : exn + A) : M A :=
  match r with
  | inl e => throw (Raw e)
  | inr a => ret a
  end.

Declare Scope js_scope.
Delimit Scope js_scope with js.
Notation "'await' x := m ; k" := (bind m (fun x => k))
  (at level 10, x name, m at level 100, k at level 200) : js_scope.
Notation "m ;; k" := (bind m (fun _ => k))
  (at level 100, k at level 200, right associativity) : js_scope.

(** The timer is the only one of the call: [setTimeout] arms it for
    [now + delay] (a negative delay counts as 0; delays are taken within the
    32-bit range of the platform's timers), [clearTimeout] disarms it when it
    is still armed and does nothing otherwise. *)
Definition setTimeout (delay : Z) : M unit := fun w =>
  (Resolved tt, mkWorld (now w) (Armed (now w + Z.max 0 delay)) (aborted w) (sent w)).

Definition clearTimeout : M unit := fun w =>
  (Resolved tt,
   match timer w with
   | Armed _ => mkWorld (now w) Cleared (aborted w) (sent w)
   | _ => w
   end).

(** The timer's callback, [() => controller.abort()], run at the deadline. *)
Definition fire (deadline : Z) (w : world) : world :=
  mkWorld deadline Fired true (sent w).

(** Letting the clock reach [t]: a timer still armed with a deadline before
    [t] runs its callback. *)
Definition run_timers (t : Z) (w : world) : world :=
  match timer w with
  | Armed deadline => if deadline <? t then fire deadline w else w
  | _ => w
  end.

Definition settle_at (t : Z) (w : world) : world :=
  mkWorld t (timer w) (aborted w) (sent w).

Section Client.

Context (P : Platform).
Context (net : network).

(** [import.meta.env.VITE_API_BASE_URL || '/api'] *)
Definition API_BASE_URL : string := or_else (VITE_API_BASE_URL P) "/api".

Definition AbortError : exn := Error "AbortError" (abort_message P).

(** [fetch(url, opts)]: the call is logged; then the network's event and the
    timer race.  With the controller's signal attached and the timer armed,
    the timer wins when its deadline comes strictly before the network's
    event ([setTimeout] runs a callback no earlier than its delay): the
    signal is aborted and [fetch] rejects with an [AbortError], whatever the
    network does later.  Without that signal nothing stops the wait. *)
Definition fetch (u : string) (o : RequestInit) : M Response := fun w =>
  let w := mkWorld (now w) (timer w) (aborted w) (sent w ++ [mkFetchCall u o]) in
  let cutoff :=
    match r_signal o, timer w with
    | Some ControllerSignal, Armed deadline => Some deadline
    | _, _ => None
    end in
  match net, cutoff with
  | Responds t r, Some d =>
      if d <? t then (Rejected (Raw AbortError), fire d w)
      else (Resolved r, settle_at t w)
  | Fails t e, Some d =>
      if d <? t then (Rejected (Raw AbortError), fire d w)
      else (Rejected (Raw e), settle_at t w)
  | Silent, Some d => (Rejected (Raw AbortError), fire d w)
  | Responds t r, None => (Resolved r, settle_at t w)
  | Fails t e, None => (Rejected (Raw e), settle_at t w)
  | Silent, None => (Pending, w)
  end.

(** [response.text()] *)
Definition text (r : Response) : M string :=
  match resp_body r with
  | BodyText s => ret s
  | BodyFails e => throw (Raw e)
  | BodyStalls => never
  end.

(** [JSON.parse(text)]: the value, or a [SyntaxError] with the parser's
    message. *)
Definition parse (s : string) : M json :=
  match JSON_parse P s with
  | inl msg => throw (Raw (Error "SyntaxError" msg))
  | inr v => ret v
  end.

(** [response.json()]: read the body, then parse it. *)
Definition json_of (r : Response) : M json :=
  bind (text r) parse.

(** [body ? JSON.stringify(body) : undefined] *)
Definition serialized (body : value) : exn + option string :=
  if truthy body then JSON_stringify P body else inr None.

Local Open Scope js_scope.

(** [async function request<T>(endpoint, options = {})] *)
Definition request (endpoint : string) (options : RequestOptions) : M json :=
  let body := body options in
  let timeout := default 30000 (timeout options) in
  let init := init options in
  (* const controller = new AbortController(); *)
  setTimeout timeout ;;
  try_catch
    (await payload := lift (serialized body) ;
     await response := fetch (API_BASE_URL +:+ endpoint)
       {| r_method := method init;
          r_other := other init;
          r_signal := Some ControllerSignal;
          r_credentials := Some "include";
          r_headers := Some (spread_headers (headers init)
                             ∪ {[ "Content-Type" := HeaderText "application/json" ]});
          r_body := TextBody <$> payload |} ;
     clearTimeout ;;
     if negb (ok response) then
       await errorData := try_catch (json_of response) (fun _ => ret JNull) ;
       throw (Api (mkApiError (resp_status response) (resp_statusText response) (Json errorData)))
     else
       await text := text response ;
       if negb (truthy (Json (JString text))) then ret (JObject [])
       else parse text)
    (fun error =>
       clearTimeout ;;
       match error with
       | Api e => throw (Api e)
       | Raw (Error name message) =>
           if String.eqb name "AbortError"
           then throw (Api (mkApiError 408 "Request Timeout" undefined))
           else throw (Api (mkApiError 0 message undefined))
       | Raw (NonError _) => throw (Api (mkApiError 0 "Unknown Error" undefined))
       end).

(** The verb helpers of [export const api].  [{ ...options, method: m }]
    keeps what the caller passed and fixes the method;
    [{ ...options, method: m, body }] also replaces the body, by [undefined]
    when the [body] argument is left out. *)
Definition with_method (options : option RequestOptions) (m : string) : RequestOptions :=
  let o := default no_options options in
  {| body := body o;
     timeout := timeout o;
     init := {| method := Some m;
                headers := headers (init o);
                credentials := credentials (init o);
                signal := signal (init o);
                other := other (init o) |} |}.

Definition with_method_body (options : option RequestOptions) (m : string) (b : value)
    : RequestOptions :=
  let o := with_method options m in
  {| body := b; timeout := timeout o; init := init o |}.

Definition api_get (endpoint : string) (options : option RequestOptions) : M json :=
  request endpoint (with_method options "GET").

Definition api_post (endpoint : string) (body : value) (options : option RequestOptions) : M json :=
  request endpoint (with_method_body options "POST" body).

Definition api_put (endpoint : string) (body : value) (options : option RequestOptions) : M json :=
  request endpoint (with_method_body options "PUT" body).

Definition api_patch (endpoint : string) (body : value) (options : option RequestOptions) : M json :=
  request endpoint (with_method_body options "PATCH" body).

Definition api_delete (endpoint : string) (options : option RequestOptions) : M json :=
  request endpoint (with_method options "DELETE").

(** [export async function uploadFile(endpoint, file, additionalData?)];
    [additionalData] is given by its [Object.entries]. *)
Definition uploadFile (endpoint : string) (file : File)
    (additionalData : option (list (string * string))) : M json :=
  let formData : FormData :=
    ("file", FileEntry file)
    :: match additionalData with
       | Some entries => (fun kv => (fst kv, StringEntry (snd kv))) <$> entries
       | None => []
       end in
  await response := fetch (API_BASE_URL +:+ endpoint)
    {| r_method := Some "POST";
       r_credentials := Some "include";
       r_body := Some (FormBody formData);
       r_headers := None;
       r_signal := None;
       r_other := [] |} ;
  if negb (ok response) then
    await errorData := try_catch (json_of response) (fun _ => ret JNull) ;
    throw (Api (mkApiError (resp_status response) (resp_statusText response) (Json errorData)))
  else json_of response.

End Client.

Arguments API_BASE_URL P : simpl never.

(** ** Vocabulary of the statements *)

(** The delay the timer of a call is armed with, counted from the start of
    the call at time 0: [timeout = 30000] unless the option is given. *)
Definition deadline_of (options : RequestOptions) : Z :=
  Z.max 0 (default 30000 (timeout options)).

(** The timer's deadline passes before the network produces anything. *)
Definition elapses_first (d : Z) (net : network) : Prop :=
  match net with
  | Responds t _ => d < t
  | Fails t _ => d < t
  | Silent => True
  end.

(** The error the client makes up for its own timeout. *)
Definition timeout_error : ApiError := mkApiError 408 "Request Timeout" undefined.

(** What the [catch] clause of the generic path turns a platform exception
    into. *)
Definition normalized (e : exn) : ApiError :=
  match e with
  | Error name message =>
      if String.eqb name "AbortError" then timeout_error
      else mkApiError 0 message undefined
  | NonError _ => mkApiError 0 "Unknown Error" undefined
  end.

(** A test a caller can run on a caught [ApiError] to recognise the client's
    own timeout: the constructor was called without [data]. *)
Definition is_client_timeout (e : ApiError) : bool :=
  (status e =? 408)
  && String.eqb (statusText e) "Request Timeout"
  && match data e with undefined => true | Json _ => false end.

(** The detail a failure response carries once its body has been read: the
    body parsed as JSON, or [null] when the body cannot be read or parsed. *)
Definition detail_of (P : Platform) (r : Response) : json :=
  match resp_body r with
  | BodyText s => match JSON_parse P s with inr v => v | inl _ => JNull end
  | BodyFails _ => JNull
  | BodyStalls => JNull
  end.

(** The response arrives by the deadline [d] and its body never ends. *)
Definition stalls_in_time (d : Z) (net : network) : Prop :=
  match net with
  | Responds t r => t <= d /\ resp_body r = BodyStalls
  | _ => False
  end.

(** The response arrives, whenever that is, and its body never ends. *)
Definition stalls (net : network) : Prop :=
  match net with
  | Responds _ r => resp_body r = BodyStalls
  | _ => False
  end.

(** The request the generic path hands to [fetch]. *)
Definition issued (P : Platform) (endpoint : string) (options : RequestOptions)
    (payload : option string) : fetch_call :=
  {| url := API_BASE_URL P +:+ endpoint;
     opts := {| r_method := method (init options);
                r_other := other (init options);
                r_signal := Some ControllerSignal;
                r_credentials := Some "include";
                r_headers :=
                  Some (spread_headers (headers (init options))
                        ∪ {[ "Content-Type" := HeaderText "application/json" ]});
                r_body := TextBody <$> payload |} |}.

(** The request the upload helper hands to [fetch]. *)
Definition uploaded (P : Platform) (endpoint : string) (file : File)
    (additionalData : option (list (string * string))) : fetch_call :=
  {| url := API_BASE_URL P +:+ endpoint;
     opts := {| r_method := Some "POST";
                r_credentials := Some "include";
                r_body := Some (FormBody
                  (("file", FileEntry file)
                   :: ((fun kv => (fst kv, StringEntry (snd kv)))
                         <$> default [] additionalData)));
                r_headers := None;
                r_signal := None;
                r_other := [] |} |}.

(** ** A platform to run the examples on *)

Module Sample.

Definition quote : string := String (Ascii.ascii_of_nat 34) EmptyString.
Definition quoted (s : string) : string := quote +:+ s +:+ quote.

Definition join (sep : string) (parts : list string) : string :=
  match parts with
  | [] => EmptyString
  | x :: rest => foldl (fun acc y => acc +:+ sep +:+ y) x rest
  end.

(** [JSON.stringify] on data whose strings need no escape. *)
Fixpoint stringify (j : json) : string :=
  match j with
  | JNull => "null"
  | JBool true => "true"
  | JBool false => "false"
  | JNum n => pretty n
  | JString s => quoted s
  | JArray items => "[" +:+ join "," (map stringify items) +:+ "]"
  | JObject fields =>
      "{" +:+ join "," (map (fun kv => quoted (fst kv) +:+ ":" +:+ stringify (snd kv)) fields)
      +:+ "}"
  end.

Definition invalid_credentials : json :=
  JObject [("message", JString "Invalid credentials")].

(** [JSON.parse] on the few texts the examples use; any other text is
    refused the way the parser refuses malformed input. *)
Definition parse_table (s : string) : string + json :=
  if String.eqb s "[]" then inr (JArray [])
  else if String.eqb s "{}" then inr (JObject [])
  else if String.eqb s "null" then inr JNull
  else if String.eqb s (stringify invalid_credentials) then inr invalid_credentials
  else inl "Unexpected token < in JSON at position 0".

Definition platform : Platform :=
  {| VITE_API_BASE_URL := None;
     JSON_parse := parse_table;
     JSON_stringify := fun v =>
       match v with
       | undefined => inr None
       | Json j => inr (Some (stringify j))
       end;
     abort_message := "signal is aborted without reason" |}.

Definition login : value :=
  Json (JObject [("email", JString "ada@example.org"); ("password", JString "hunter2")]).

Definition csv : File := mkFile "sales.csv" 5242880.

Definition unauthorized : Response :=
  mkResponse 401 "Unauthorized" (BodyText (stringify invalid_credentials)).

Definition html_error_page : Response :=
  mkResponse 502 "Bad Gateway" (BodyText "<html>Bad Gateway</html>").

Definition empty_list : Response := mkResponse 200 "OK" (BodyText "[]").
Definition no_content : Response := mkResponse 204 "No Content" (BodyText EmptyString).
Definition html_page : Response := mkResponse 200 "OK" (BodyText "<html>hello</html>").

(** A response whose headers arrive and whose body never ends. *)
Definition stalled : Response := mkResponse 200 "OK" BodyStalls.

Definition server_timeout : Response :=
  mkResponse 408 "Request Timeout" (BodyText "<html>Request Timeout</html>").

Definition failed_to_fetch : exn := Error "TypeError" "Failed to fetch".
Definition user_abort : exn := Error "AbortError" "The user aborted a request.".

End Sample.

(** * The callers of the client

    The pages and the auth hook call the client from event handlers that
    set React state.  A handler is embedded as a function over the state it
    sets: the values it reads at its start are those of the state it is run
    on, every [setX(v)] is a record update, and each call to the client runs
    in a world of its own.  The strings of the model are the JavaScript
    strings whose code units are below 256, one character per unit. *)

(** ** Reading properties of data *)

(** The own property [k] of an object given by its entries (the keys are
    distinct); [undefined] when there is none. *)
Fixpoint field (k : string) (fields : list (string * json)) : value :=
  match fields with
  | [] => undefined
  | kv :: rest => if String.eqb k (fst kv) then Json (snd kv) else field k rest
  end.

(** [j.k] for a key that is neither an index nor the name of a built-in
    method: reading a property of [null] throws a [TypeError]. *)
Definition prop (j : json) (k : string) : exn + value :=
  match j with
  | JNull =>
      inl (Error "TypeError" ("Cannot read properties of null (reading '" +:+ k +:+ "')"))
  | JBool _ => inr undefined
  | JNum _ => inr undefined
  | JString s =>
      inr (if String.eqb k "length" then Json (JNum (Z.of_nat (String.length s)))
           else undefined)
  | JArray items =>
      inr (if String.eqb k "length" then Json (JNum (Z.of_nat (length items)))
           else undefined)
  | JObject fields => inr (field k fields)
  end.

(** [v?.k] *)
Definition optional_prop (v : value) (k : string) : value :=
  match v with
  | undefined => undefined
  | Json JNull => undefined
  | Json j => match prop j k with inr x => x | inl _ => undefined end
  end.

(** [v[0]] *)
Definition first_of (v : value) : exn + value :=
  match v with
  | undefined =>
      inl (Error "TypeError" "Cannot read properties of undefined (reading '0')")
  | Json JNull => inl (Error "TypeError" "Cannot read properties of null (reading '0')")
  | Json (JBool _) => inr undefined
  | Json (JNum _) => inr undefined
  | Json (JString s) =>
      inr (match s with
           | EmptyString => undefined
           | String c _ => Json (JString (String c EmptyString))
           end)
  | Json (JArray items) =>
      inr (match items with
           | [] => undefined
           | x :: _ => Json x
           end)
  | Json (JObject fields) => inr (field "0" fields)
  end.

(** [a || b] *)
Definition or_value (a b : value) : value := if truthy a then a else b.

(** ** Handlers over a state *)

Definition Task (S A : Type) : Type := S -> outcome A * S.

Definition task_ret {S A} (a : A) : Task S A := fun s => (Resolved a, s).

Definition task_bind {S A B} (m : Task S A) (k : A -> Task S B) : Task S B := fun s =>
  match m s with
  | (Resolved a, s') => k a s'
  | (Rejected e, s') => (Rejected e, s')
  | (Pending, s') => (Pending, s')
  end.

Definition task_throw {S A} (e : thrown) : Task S A := fun s => (Rejected e, s).

(** A synchronous expression that returns or throws. *)
Definition task_lift {S A} (r : exn + A) : Task S A :=
  match r with
  | inl e => task_throw (Raw e)
  | inr a => task_ret a
  end.

(** [setX(v)] and the other effects that only change the state. *)
Definition set {S} (f : S -> S) : Task S unit := fun s => (Resolved tt, f s).

(** [await] of a call to the client, which runs in a world of its own. *)
Definition call {S A} (m : M A) : Task S A := fun s => (fst (m fresh), s).

(** [try { m } catch (error) { h error }] *)
Definition task_try {S A} (m : Task S A) (h : thrown -> Task S A) : Task S A := fun s =>
  match m s with
  | (Rejected e, s') => h e s'
  | r => r
  end.

(** [try { ... } finally { fin }]: [fin] runs once the protected part has
    settled, and the outcome is kept unless [fin] itself does not complete. *)
Definition task_finally {S A} (m : Task S A) (fin : Task S unit) : Task S A := fun s =>
  match m s with
  | (Pending, s') => (Pending, s')
  | (o, s') =>
      match fin s' with
      | (Resolved _, s'') => (o, s'')
      | (Rejected e, s'') => (Rejected e, s'')
      | (Pending, s'') => (Pending, s'')
      end
  end.

Declare Scope task_scope.
Delimit Scope task_scope with task.
Notation "'await' x := m ; k" := (task_bind m (fun x => k))
  (at level 10, x name, m at level 100, k at level 200) : task_scope.
Notation "m ;; k" := (task_bind m (fun _ => k))
  (at level 100, k at level 200, right associativity) : task_scope.

(** ** The auth hook ([src/hooks/useAuth.tsx]) *)

Module Auth.

(** The state of [AuthProvider], with the two effects its handlers have
    besides it: the routes passed to [navigate] and the errors passed to
    [console.error].  [null] is [JNull]. *)
Record State : Type := mkState {
  user : json;
  isLoading : bool;
  error : json;
  navigations : list string;
  console : list thrown
}.

(** [useState(null)], [useState(true)], [useState(null)] *)
Definition initial : State := mkState JNull true JNull [] [].

Definition setUser (u : json) (s : State) : State :=
  mkState u (isLoading s) (error s) (navigations s) (console s).

Definition setIsLoading (b : bool) (s : State) : State :=
  mkState (user s) b (error s) (navigations s) (console s).

Definition setError (e : json) (s : State) : State :=
  mkState (user s) (isLoading s) e (navigations s) (console s).

Definition navigate (route : string) (s : State) : State :=
  mkState (user s) (isLoading s) (error s) (navigations s ++ [route]) (console s).

Definition console_error (e : thrown) (s : State) : State :=
  mkState (user s) (isLoading s) (error s) (navigations s) (console s ++ [e]).

(** [isAuthenticated: !!user] *)
Definition isAuthenticated (s : State) : bool := truthy (Json (user s)).

(** The text a failed login or signup shows:
    [err instanceof ApiError ? err.data?.message || fallback
                             : 'An unexpected error occurred'],
    a string by its type and whatever the server put under [message] in
    fact. *)
Definition failure_message (err : thrown) (fallback : string) : json :=
  match err with
  | Api e =>
      match or_value (optional_prop (data e) "message") (Json (JString fallback)) with
      | Json j => j
      | undefined => JString fallback
      end
  | Raw _ => JString "An unexpected error occurred"
  end.

Section Handlers.

Context (P : Platform) (net : network).

Local Open Scope task_scope.

(** [const checkAuth = useCallback(async () => { ... }, [])] *)
Definition checkAuth : Task State unit :=
  task_finally
    (task_try
       (await userData := call (api_get P net "/auth/me" None) ;
        set (setUser userData))
       (fun _ => set (setUser JNull)))
    (set (setIsLoading false)).

(** [const login = useCallback(async (email, password) => { ... })] *)
Definition login (email password : string) : Task State unit :=
  set (setIsLoading true) ;;
  set (setError JNull) ;;
  task_finally
    (task_try
       (await userData := call (api_post P net "/auth/login"
                                  (Json (JObject [("email", JString email);
                                                  ("password", JString password)]))
                                  None) ;
        set (setUser userData) ;;
        set (navigate "/dashboard"))
       (fun err =>
          set (setError (failure_message err "Login failed")) ;;
          task_throw err))
    (set (setIsLoading false)).

(** [const logout = useCallback(async () => { ... })] *)
Definition logout : Task State unit :=
  set (setIsLoading true) ;;
  task_finally
    (task_try
       (call (api_post P net "/auth/logout" undefined None) ;;
        task_ret tt)
       (fun err => set (console_error err)))
    (set (setUser JNull) ;;
     set (setIsLoading false) ;;
     set (navigate "/login")).

End Handlers.

(** What [ProtectedRoute] renders ([src/components/auth/ProtectedRoute.tsx]). *)
Inductive view : Type :=
| SkeletonPage
| NavigateToLogin
| Children.

Definition ProtectedRoute (s : State) : view :=
  if isLoading s then SkeletonPage
  else if negb (isAuthenticated s) then NavigateToLogin
  else Children.

End Auth.

(** The body of a login request, [{ email, password }]. *)
Definition credentials_of (email password : string) : value :=
  Json (JObject [("email", JString email); ("password", JString password)]).

(** ** The analyzer page ([src/pages/AnalyzerPage.tsx]) *)

Module Analyzer.

(** The state of [AnalyzerPage] that [handleAnalyze] reads and sets, and the
    toasts it raises (title and description). *)
Record State : Type := mkState {
  file : option File;
  manualData : string;
  prompt : string;
  isAnalyzing : bool;
  result : json;
  selectedChart : value;
  error : json;
  toasts : list (string * string)
}.

Definition initial : State :=
  mkState None EmptyString EmptyString false JNull (Json (JString "bar")) JNull [].

Definition setFile (f : option File) (s : State) : State :=
  mkState f (manualData s) (prompt s) (isAnalyzing s) (result s) (selectedChart s)
    (error s) (toasts s).

Definition setManualData (d : string) (s : State) : State :=
  mkState (file s) d (prompt s) (isAnalyzing s) (result s) (selectedChart s)
    (error s) (toasts s).

Definition setIsAnalyzing (b : bool) (s : State) : State :=
  mkState (file s) (manualData s) (prompt s) b (result s) (selectedChart s)
    (error s) (toasts s).

Definition setResult (r : json) (s : State) : State :=
  mkState (file s) (manualData s) (prompt s) (isAnalyzing s) r (selectedChart s)
    (error s) (toasts s).

Definition setSelectedChart (c : value) (s : State) : State :=
  mkState (file s) (manualData s) (prompt s) (isAnalyzing s) (result s) c
    (error s) (toasts s).

Definition setError (e : json) (s : State) : State :=
  mkState (file s) (manualData s) (prompt s) (isAnalyzing s) (result s)
    (selectedChart s) e (toasts s).

Definition toast (title description : string) (s : State) : State :=
  mkState (file s) (manualData s) (prompt s) (isAnalyzing s) (result s)
    (selectedChart s) (error s) (toasts s ++ [(title, description)]).

(** [const handleFileSelect = (selectedFile) => { ... }] *)
Definition handleFileSelect (selectedFile : File) (s : State) : State :=
  setManualData EmptyString (setFile (Some selectedFile) s).

Section Handlers.

(** [sampleResult] is a constant of the page; the handlers only store it. *)
Context (P : Platform) (net : network) (sampleResult : json).

Local Open Scope task_scope.

(** [const loadSampleData = () => { ... }] *)
Definition loadSampleData (s : State) : State :=
  toast "Sample Data Loaded" "Showing demo visualization."
    (setSelectedChart (Json (JString "bar")) (setResult sampleResult s)).

(** The request [handleAnalyze] makes: the upload when a file is selected,
    [api.post] of [{ data: manualData, prompt }] otherwise. *)
Definition analysis (s0 : State) : M json :=
  match file s0 with
  | Some f => uploadFile P net "/analyzer/upload" f None
  | None =>
      api_post P net "/analyzer/upload"
        (Json (JObject [("data", JString (manualData s0));
                        ("prompt", JString (prompt s0))]))
        None
  end.

(** [const handleAnalyze = async () => { ... }] *)
Definition handleAnalyze : Task State unit := fun s0 =>
  (set (setIsAnalyzing true) ;;
   set (setError JNull) ;;
   task_finally
     (task_try
        (await response := call (analysis s0) ;
         set (setResult response) ;;
         await suggestedCharts := task_lift (prop response "suggestedCharts") ;
         (if truthy (optional_prop suggestedCharts "length")
          then await chart := task_lift (first_of suggestedCharts) ;
               set (setSelectedChart chart)
          else task_ret tt) ;;
         set (toast "Analysis complete" "Your data has been processed."))
        (fun _ =>
           set (setResult sampleResult) ;;
           set (setSelectedChart (Json (JString "bar"))) ;;
           set (toast "Sample Data Loaded" "Showing demo visualization.")))
     (set (setIsAnalyzing false))) s0.

End Handlers.

End Analyzer.

(** ** The dashboard page ([src/pages/DashboardPage.tsx]) *)

(** [Promise.all([a, b])] of two calls to the client, started together, each
    in a world of its own: it resolves with both values, rejects with the
    rejection that comes first on the clock (the first of the array on a
    tie), and stays pending otherwise. *)
Definition promise_all2 {S A B} (a : M A) (b : M B) : Task S (A * B) := fun s =>
  match a fresh, b fresh with
  | (Resolved x, _), (Resolved y, _) => (Resolved (x, y), s)
  | (Rejected e, w), (Rejected e', w') =>
      (Rejected (if now w' <? now w then e' else e), s)
  | (Rejected e, _), _ => (Rejected e, s)
  | _, (Rejected e', _) => (Rejected e', s)
  | _, _ => (Pending, s)
  end.

Module Dashboard.

Record DashboardStats : Type := mkStats {
  totalDatasets : value;
  totalAnalyses : value;
  recentActivity : value
}.

Record State : Type := mkState {
  stats : option DashboardStats;
  datasets : json;
  analyses : json;
  isLoading : bool;
  error : json
}.

(** [useState(null)], [useState([])], [useState([])], [useState(true)],
    [useState(null)] *)
Definition initial : State := mkState None (JArray []) (JArray []) true JNull.

Definition setStats (x : option DashboardStats) (s : State) : State :=
  mkState x (datasets s) (analyses s) (isLoading s) (error s).

Definition setDatasets (x : json) (s : State) : State :=
  mkState (stats s) x (analyses s) (isLoading s) (error s).

Definition setAnalyses (x : json) (s : State) : State :=
  mkState (stats s) (datasets s) x (isLoading s) (error s).

Definition setIsLoading (b : bool) (s : State) : State :=
  mkState (stats s) (datasets s) (analyses s) b (error s).

Definition setError (e : json) (s : State) : State :=
  mkState (stats s) (datasets s) (analyses s) (isLoading s) e.

Section Handlers.

(** [plus] is the operator [+] of the language on two values; [net1] and
    [net2] are what the network does with the two requests. *)
Context (P : Platform) (net1 net2 : network) (plus : value -> value -> value).

Local Open Scope task_scope.

(** [async function fetchDashboardData() { ... }] *)
Definition fetchDashboardData : Task State unit :=
  set (setIsLoading true) ;;
  set (setError JNull) ;;
  task_finally
    (task_try
       (await both :=
          promise_all2
            (try_catch (api_get P net1 "/user/datasets" None)
                       (fun _ => ret (JArray [])))
            (try_catch (api_get P net2 "/user/analysis" None)
                       (fun _ => ret (JArray []))) ;
        let datasetsRes := fst both in
        let analysesRes := snd both in
        set (setDatasets datasetsRes) ;;
        set (setAnalyses analysesRes) ;;
        await n := task_lift (prop datasetsRes "length") ;
        await m := task_lift (prop analysesRes "length") ;
        set (setStats (Some {| totalDatasets := n;
                               totalAnalyses := m;
                               recentActivity := plus n m |})))
       (fun err =>
          match err with
          | Api _ => set (setError (JString "Failed to load dashboard data. Please try again."))
          | Raw _ => task_ret tt
          end))
    (set (setIsLoading false)).

End Handlers.

End Dashboard.

(** ** Vocabulary of the statements about the callers *)

(** The analyzer page once the sample has been loaded in place of a result. *)
Definition sample_shown (sampleResult : json) (s : Analyzer.State) : Analyzer.State :=
  Analyzer.mkState (Analyzer.file s) (Analyzer.manualData s) (Analyzer.prompt s) false
    sampleResult (Json (JString "bar")) JNull
    (Analyzer.toasts s ++ [("Sample Data Loaded", "Showing demo visualization.")])%list.

(** The analyzer page once a result has been stored, with the chart [c]. *)
Definition result_shown (response : json) (c : value) (s : Analyzer.State)
    : Analyzer.State :=
  Analyzer.mkState (Analyzer.file s) (Analyzer.manualData s) (Analyzer.prompt s) false
    response c JNull
    (Analyzer.toasts s ++ [("Analysis complete", "Your data has been processed.")])%list.

Definition is_pending {A} (o : outcome A) : bool :=
  match o with
  | Pending => true
  | _ => false
  end.

(** What [api.get(...).catch(() => [])] resolves with. *)
Definition list_or_empty (o : outcome json) : json :=
  match o with
  | Resolved v => v
  | _ => JArray []
  end.

(** ** More of the examples' platform *)

Module SampleApp.

Definition ada : json :=
  JObject [("id", JString "u1"); ("email", JString "ada@example.org")].

Definition charts : json :=
  JObject [("id", JString "a1");
           ("suggestedCharts", JArray [JString "line"; JString "pie"])].

Definition two_datasets : json :=
  JArray [JObject [("id", JString "d1")]; JObject [("id", JString "d2")]].

(** [JSON.parse] on the texts of these examples, and on those of
    [Sample.parse_table]. *)
Definition parse_table (s : string) : string + json :=
  if String.eqb s (Sample.stringify ada) then inr ada
  else if String.eqb s (Sample.stringify charts) then inr charts
  else if String.eqb s (Sample.stringify two_datasets) then inr two_datasets
  else if String.eqb s EmptyString then inl "Unexpected end of JSON input"
  else Sample.parse_table s.

Definition platform : Platform :=
  {| VITE_API_BASE_URL := Some EmptyString;
     JSON_parse := parse_table;
     JSON_stringify := JSON_stringify Sample.platform;
     abort_message := abort_message Sample.platform |}.

(** A deployment whose environment names the server. *)
Definition hosted : Platform :=
  {| VITE_API_BASE_URL := Some "https://api.example.org/v1";
     JSON_parse := parse_table;
     JSON_stringify := JSON_stringify Sample.platform;
     abort_message := abort_message Sample.platform |}.

(** A platform whose [JSON.stringify] throws, as on a circular structure. *)
Definition circular : Platform :=
  {| VITE_API_BASE_URL := None;
     JSON_parse := parse_table;
     JSON_stringify := fun _ =>
       inl (Error "TypeError" "Converting circular structure to JSON");
     abort_message := abort_message Sample.platform |}.

Definition respond (status : Z) (reason : string) (v : json) : Response :=
  mkResponse status reason (BodyText (Sample.stringify v)).

(** [+] on two numbers. *)
Definition plus (a b : value) : value :=
  match a, b with
  | Json (JNum x), Json (JNum y) => Json (JNum (x + y))
  | _, _ => undefined
  end.

Definition sampleResult : json :=
  JObject [("id", JString "sample-1");
           ("suggestedCharts", JArray [JString "bar"; JString "line"; JString "pie"])].

End SampleApp.

(** ** The runs of the generic path, phase by phase *)

Ltac start :=
  unfold request, uploadFile, bind, try_catch, setTimeout, clearTimeout, fetch,
    lift, throw, ret, fire, settle_at, deadline_of in *;
  simpl in *; rewrite ?Z.add_0_l in *.

Ltac by_clock :=
  repeat match goal with
  | |- context [ (?d <? ?t) ] => destruct (Z.ltb_spec d t); try lia
  end.

Ltac by_handler e :=
  let name := fresh "name" in
  let message := fresh "message" in
  destruct e as [name message|?]; simpl;
  [destruct (String.eqb name "AbortError")|]; reflexivity.

Section Runs.

Context (P : Platform) (endpoint : string) (options : RequestOptions).

(** Serialization throws: [fetch] is never reached. *)
Lemma run_not_serializable net e :
  serialized P (body options) = inl e ->
  request P net endpoint options fresh
  = (Rejected (Api (normalized e)), mkWorld 0 Cleared false []).
Proof.
  intros Hs. start. rewrite Hs. simpl. by_handler e.
Qed.

(** The timer fires while [fetch] is still waiting. *)
Lemma run_timer_first net p :
  serialized P (body options) = inr p ->
  elapses_first (deadline_of options) net ->
  request P net endpoint options fresh
  = (Rejected (Api timeout_error),
     mkWorld (deadline_of options) Fired true [issued P endpoint options p]).
Proof.
  intros Hs Hnet. start. rewrite Hs. simpl.
  destruct net as [t r|t e|]; simpl in *; by_clock; reflexivity.
Qed.

(** [fetch] rejects before the deadline. *)
Lemma run_fetch_fails t e p :
  serialized P (body options) = inr p ->
  t <= deadline_of options ->
  request P (Fails t e) endpoint options fresh
  = (Rejected (Api (normalized e)),
     mkWorld t Cleared false [issued P endpoint options p]).
Proof.
  intros Hs Ht. start. rewrite Hs. simpl. by_clock. simpl. by_handler e.
Qed.

(** A response outside 200-299 arrives before the deadline. *)
Lemma run_failure_response t r p :
  serialized P (body options) = inr p ->
  t <= deadline_of options ->
  ok r = false ->
  request P (Responds t r) endpoint options fresh
  = (match resp_body r with
     | BodyStalls => Pending
     | _ => Rejected (Api (mkApiError (resp_status r) (resp_statusText r)
                                      (Json (detail_of P r))))
     end,
     mkWorld t Cleared false [issued P endpoint options p]).
Proof.
  intros Hs Ht Hok. start. rewrite Hs. simpl. by_clock. simpl.
  rewrite Hok. simpl.
  unfold json_of, text, parse, detail_of, never, bind, lift, throw, ret.
  destruct (resp_body r) as [s|e|]; simpl; try reflexivity.
  destruct (JSON_parse P s); reflexivity.
Qed.

(** The same, once the body has been read or has failed to be. *)
Lemma run_failure_read t r p :
  serialized P (body options) = inr p ->
  t <= deadline_of options ->
  ok r = false ->
  resp_body r <> BodyStalls ->
  request P (Responds t r) endpoint options fresh
  = (Rejected (Api (mkApiError (resp_status r) (resp_statusText r)
                               (Json (detail_of P r)))),
     mkWorld t Cleared false [issued P endpoint options p]).
Proof.
  intros Hs Ht Hok Hread. rewrite (run_failure_response _ _ _ Hs Ht Hok).
  by destruct (resp_body r).
Qed.

(** A response in 200-299 arrives before the deadline. *)
Lemma run_success_response t r p :
  serialized P (body options) = inr p ->
  t <= deadline_of options ->
  ok r = true ->
  request P (Responds t r) endpoint options fresh
  = (match resp_body r with
     | BodyFails e => Rejected (Api (normalized e))
     | BodyStalls => Pending
     | BodyText s =>
         if String.eqb s EmptyString then Resolved (JObject [])
         else match JSON_parse P s with
              | inr v => Resolved v
              | inl msg => Rejected (Api (mkApiError 0 msg undefined))
              end
     end,
     mkWorld t Cleared false [issued P endpoint options p]).
Proof.
  intros Hs Ht Hok. start. rewrite Hs. simpl. by_clock. simpl.
  rewrite Hok. simpl. unfold text, parse, never, lift, throw, ret.
  destruct (resp_body r) as [s|e|]; simpl.
  - destruct (String.eqb s EmptyString); simpl; [reflexivity|].
    destruct (JSON_parse P s); reflexivity.
  - by_handler e.
  - reflexivity.
Qed.

(** Either the timer comes first or the network's event is in time. *)
Lemma race (d : Z) (net : network) :
  elapses_first d net
  \/ (exists t r, net = Responds t r /\ t <= d)
  \/ (exists t e, net = Fails t e /\ t <= d).
Proof.
  destruct net as [t r|t e|]; simpl; [| |by left];
    destruct (Z.lt_ge_cases d t); eauto 6.
Qed.

(** One [fetch] at most, and it is the one [issued] describes. *)
Lemma run_sent net p :
  serialized P (body options) = inr p ->
  sent (snd (request P net endpoint options fresh)) = [issued P endpoint options p].
Proof.
  intros Hs.
  destruct (race (deadline_of options) net) as [H|[(t & r & -> & Ht)|(t & e & -> & Ht)]].
  - by rewrite (run_timer_first _ _ Hs H).
  - destruct (ok r) eqn:Hok.
    + by rewrite (run_success_response _ _ _ Hs Ht Hok).
    + by rewrite (run_failure_response _ _ _ Hs Ht Hok).
  - by rewrite (run_fetch_fails _ _ _ Hs Ht).
Qed.

End Runs.

(** The generic path closes every failure into [ApiError]: a call resolves
    with a value, rejects with an [ApiError], or waits for ever on the body
    of a response that arrived in time, the timer being cleared by then. *)
Lemma request_outcome_cases P net endpoint options :
  (exists v, fst (request P net endpoint options fresh) = Resolved v)
  \/ (exists e, fst (request P net endpoint options fresh) = Rejected (Api e))
  \/ (fst (request P net endpoint options fresh) = Pending
      /\ stalls_in_time (deadline_of options) net).
Proof.
  destruct (serialized P (body options)) as [e|p] eqn:Hs.
  { rewrite (run_not_serializable _ _ _ _ _ Hs). eauto. }
  destruct (race (deadline_of options) net) as [H|[(t & r & -> & Ht)|(t & e & -> & Ht)]].
  - rewrite (run_timer_first _ _ _ _ _ Hs H). eauto.
  - destruct (ok r) eqn:Hok.
    + rewrite (run_success_response _ _ _ _ _ _ Hs Ht Hok). simpl.
      destruct (resp_body r) as [s|e|]; [|eauto|by auto].
      destruct (String.eqb s EmptyString); [eauto|].
      destruct (JSON_parse P s); eauto.
    + rewrite (run_failure_response _ _ _ _ _ _ Hs Ht Hok). simpl.
      destruct (resp_body r) as [s|e|]; [eauto|eauto|by auto].
  - rewrite (run_fetch_fails _ _ _ _ _ _ Hs Ht). eauto.
Qed.

(** A call is left pending only by a stalled body; in particular it is not
    when the network fails or stays silent. *)
Lemma request_pending_iff P net endpoint options :
  fst (request P net endpoint options fresh) = Pending
  <-> (exists p, serialized P (body options) = inr p)
      /\ stalls_in_time (deadline_of options) net.
Proof.
  destruct (serialized P (body options)) as [e|p] eqn:Hs.
  { rewrite (run_not_serializable _ _ _ _ _ Hs). simpl.
    split; [done|]. by intros [[p Hp] _]. }
  assert (Hp : exists p0 : option string, @inr exn _ p = inr p0) by eauto.
  destruct (race (deadline_of options) net) as [H|[(t & r & -> & Ht)|(t & e & -> & Ht)]].
  - rewrite (run_timer_first _ _ _ _ _ Hs H). simpl. split; [done|].
    intros [_ Hst]. destruct net as [t r|t e|]; simpl in *; [lia|done|done].
  - simpl. destruct (ok r) eqn:Hok.
    + rewrite (run_success_response _ _ _ _ _ _ Hs Ht Hok). simpl.
      destruct (resp_body r) as [s|e|].
      * split; [|by intros [_ [_ ?]]].
        destruct (String.eqb s EmptyString); [done|]. by destruct (JSON_parse P s).
      * split; [done|]. by intros [_ [_ ?]].
      * by split.
    + rewrite (run_failure_response _ _ _ _ _ _ Hs Ht Hok). simpl.
      destruct (resp_body r) as [s|e|]; [| |by split];
        (split; [done|]; by intros [_ [_ ?]]).
  - rewrite (run_fetch_fails _ _ _ _ _ _ Hs Ht). simpl. split; [done|]. by intros [_ ?].
Qed.

(** ** The runs of the upload helper *)

Lemma upload_run P net endpoint file extra :
  uploadFile P net endpoint file extra fresh
  = match net with
    | Silent => (Pending, mkWorld 0 Idle false [uploaded P endpoint file extra])
    | Fails t e => (Rejected (Raw e), mkWorld t Idle false [uploaded P endpoint file extra])
    | Responds t r =>
        (match resp_body r with
         | BodyStalls => Pending
         | BodyFails e =>
             if ok r then Rejected (Raw e)
             else Rejected (Api (mkApiError (resp_status r) (resp_statusText r)
                                            (Json JNull)))
         | BodyText s =>
             if ok r then
               match JSON_parse P s with
               | inl msg => Rejected (Raw (Error "SyntaxError" msg))
               | inr v => Resolved v
               end
             else Rejected (Api (mkApiError (resp_status r) (resp_statusText r)
                                            (Json (detail_of P r))))
         end,
         mkWorld t Idle false [uploaded P endpoint file extra])
    end.
Proof.
  start. unfold uploaded.
  destruct net as [t r|t e|]; simpl; destruct extra; simpl; try reflexivity;
    unfold json_of, text, parse, detail_of, never, bind, lift, throw, ret;
    destruct (ok r); simpl; destruct (resp_body r) as [s|e|]; simpl; try reflexivity;
    destruct (JSON_parse P s); reflexivity.
Qed.

(** ** Error normalization (C1) *)

(** C1.  Every call is meant to end with a parsed value or a normalized
    [ApiError].  The generic path does ([request_outcome_cases]); the
    upload helper has no [catch]: when its [fetch] rejects, whatever the
    platform threw reaches the caller as it is, and it is not an [ApiError]. *)
Theorem upload_propagates_raw_exception P endpoint file extra t e :
  fst (uploadFile P (Fails t e) endpoint file extra fresh) = Rejected (Raw e).
Proof.
  by rewrite upload_run.
Qed.

(** The same happens on a 2xx response whose body is not JSON: the parser's
    [SyntaxError] is what the caller catches. *)
Lemma upload_propagates_syntax_error P endpoint file extra t r s msg :
  ok r = true ->
  resp_body r = BodyText s ->
  JSON_parse P s = inl msg ->
  fst (uploadFile P (Responds t r) endpoint file extra fresh)
  = Rejected (Raw (Error "SyntaxError" msg)).
Proof.
  intros Hok Hbody Hparse. rewrite upload_run. simpl.
  by rewrite Hok, Hbody, Hparse.
Qed.

Example upload_failed_to_fetch :
  fst (uploadFile Sample.platform (Fails 10 Sample.failed_to_fetch)
         "/analyzer/upload" Sample.csv None fresh)
  = Rejected (Raw (Error "TypeError" "Failed to fetch")).
Proof. reflexivity. Qed.

(** ** Client-side timeout (C2) *)

Lemma server_error_has_data P endpoint options p t r :
  serialized P (body options) = inr p ->
  t <= deadline_of options ->
  ok r = false ->
  resp_body r <> BodyStalls ->
  exists e,
    fst (request P (Responds t r) endpoint options fresh) = Rejected (Api e)
    /\ status e = resp_status r
    /\ is_client_timeout e = false.
Proof.
  intros Hs Ht Hok Hread. rewrite (run_failure_read _ _ _ _ _ _ Hs Ht Hok Hread).
  eexists; split; [reflexivity|]. split; [reflexivity|].
  unfold is_client_timeout. simpl. by rewrite andb_false_r.
Qed.

Lemma status_408_not_ok r : resp_status r = 408 -> ok r = false.
Proof.
  intros H. unfold ok. rewrite H. reflexivity.
Qed.

(** C2.  When the timer's deadline (the [timeout] option, 30000 ms when it is
    not given) passes before the network has produced anything, the call
    rejects with [ApiError(408, "Request Timeout")] at the deadline; a
    response that would arrive later changes nothing; and the error differs
    from the one any response with status 408 leads to once its body has
    been read: the client's own has no [data], a response's always has
    ([null] or the parsed body). *)
Theorem timeout_rejects_with_sentinel_408 P endpoint options p :
  serialized P (body options) = inr p ->
  (timeout options = None -> deadline_of options = 30000)
  /\ (forall net, elapses_first (deadline_of options) net ->
        fst (request P net endpoint options fresh)
        = Rejected (Api (mkApiError 408 "Request Timeout" undefined))
        /\ now (snd (request P net endpoint options fresh)) = deadline_of options)
  /\ (forall t r, deadline_of options < t ->
        fst (request P (Responds t r) endpoint options fresh)
        = fst (request P Silent endpoint options fresh))
  /\ is_client_timeout (mkApiError 408 "Request Timeout" undefined) = true
  /\ (forall t r, t <= deadline_of options -> resp_status r = 408 ->
        resp_body r <> BodyStalls ->
        exists e,
          fst (request P (Responds t r) endpoint options fresh) = Rejected (Api e)
          /\ status e = 408
          /\ is_client_timeout e = false).
Proof.
  intros Hs. repeat split.
  - intros Hnone. unfold deadline_of. by rewrite Hnone.
  - by rewrite (run_timer_first _ _ _ _ _ Hs H).
  - by rewrite (run_timer_first _ _ _ _ _ Hs H).
  - intros t r Hlate.
    rewrite (run_timer_first _ _ _ (Responds t r) _ Hs Hlate).
    by rewrite (run_timer_first _ _ _ Silent _ Hs I).
  - intros t r Ht H408 Hread.
    destruct (server_error_has_data P endpoint options p t r Hs Ht
                (status_408_not_ok r H408) Hread) as (e & He & Hst & Hd).
    exists e. by rewrite <- H408, <- Hst.
Qed.

Lemma timeout_rejects_with_sentinel_408_witness :
  fst (request Sample.platform Silent "/user/datasets"
         (mkRequestOptions undefined (Some 50) no_init) fresh)
  = Rejected (Api (mkApiError 408 "Request Timeout" undefined))
  /\ now (snd (request Sample.platform Silent "/user/datasets"
                 (mkRequestOptions undefined (Some 50) no_init) fresh)) = 50.
Proof.
  pose proof (timeout_rejects_with_sentinel_408 Sample.platform "/user/datasets"
                (mkRequestOptions undefined (Some 50) no_init) None eq_refl)
    as (_ & H & _).
  exact (H Silent I).
Defined.

(** A response can carry the very status and status text the client uses
    for its own timeout; only [data] tells the two errors apart. *)
Example server_sent_408 :
  fst (request Sample.platform (Responds 120 Sample.server_timeout) "/user/datasets"
         no_options fresh)
  = Rejected (Api (mkApiError 408 "Request Timeout" (Json JNull))).
Proof. reflexivity. Qed.

(** ** Failure responses (C3) *)

(** C3.  A response whose status is outside 200-299, arriving before the
    deadline, makes the call reject with an [ApiError] carrying that status
    and the response's status text; its [data] is the body parsed as JSON
    when the body parses, and [null] (no detail, no second error) when
    reading the body fails or the text read does not parse. *)
Theorem failure_response_rejects_with_status_and_detail P endpoint options p t r :
  serialized P (body options) = inr p ->
  t <= deadline_of options ->
  ~ (200 <= resp_status r <= 299) ->
  (forall s v, resp_body r = BodyText s -> JSON_parse P s = inr v ->
     fst (request P (Responds t r) endpoint options fresh)
     = Rejected (Api (mkApiError (resp_status r) (resp_statusText r) (Json v))))
  /\ ((exists e, resp_body r = BodyFails e)
      \/ (exists s msg, resp_body r = BodyText s /\ JSON_parse P s = inl msg) ->
     fst (request P (Responds t r) endpoint options fresh)
     = Rejected (Api (mkApiError (resp_status r) (resp_statusText r) (Json JNull)))).
Proof.
  intros Hs Ht Hrange.
  assert (Hok : ok r = false).
  { unfold ok. apply andb_false_iff.
    destruct (Z.leb_spec 200 (resp_status r)); [|by left].
    destruct (Z.leb_spec (resp_status r) 299); [lia|by right]. }
  rewrite (run_failure_response _ _ _ _ _ _ Hs Ht Hok). simpl.
  unfold detail_of. split.
  - intros s v Hbody Hparse. by rewrite Hbody, Hparse.
  - intros [[e Hbody]|(s & msg & Hbody & Hparse)]; rewrite Hbody; [done|].
    by rewrite Hparse.
Qed.

Lemma failure_response_rejects_with_status_and_detail_witness :
  fst (api_post Sample.platform (Responds 120 Sample.unauthorized) "/auth/login"
         Sample.login None fresh)
  = Rejected (Api (mkApiError 401 "Unauthorized" (Json Sample.invalid_credentials))).
Proof.
  refine (proj1 (failure_response_rejects_with_status_and_detail Sample.platform
                   "/auth/login" (with_method_body None "POST" Sample.login)
                   _ 120 Sample.unauthorized eq_refl _ _) _ _ eq_refl eq_refl).
  - vm_compute. discriminate.
  - simpl. lia.
Defined.

Example failure_response_without_json :
  fst (api_get Sample.platform (Responds 120 Sample.html_error_page) "/user/datasets"
         None fresh)
  = Rejected (Api (mkApiError 502 "Bad Gateway" (Json JNull))).
Proof. reflexivity. Qed.

(** ** Success responses (C4, C5) *)

Lemma in_range_ok r : 200 <= resp_status r <= 299 -> ok r = true.
Proof.
  intros [Hlo Hhi]. unfold ok. apply andb_true_iff. split; by apply Z.leb_le.
Qed.

Lemma nonempty_eqb (s : string) : s <> EmptyString -> String.eqb s EmptyString = false.
Proof.
  intros Hne. by apply String.eqb_neq.
Qed.

(** C4.  A response with a status in 200-299, arriving before the deadline,
    whose body reads as the text [s]: when [s] is empty the call resolves
    with the empty object [{}] (a value, not [null], and not a rejection);
    otherwise it resolves with what [JSON.parse] makes of [s]. *)
Theorem success_response_resolves_with_decoded_body P endpoint options p t r s :
  serialized P (body options) = inr p ->
  t <= deadline_of options ->
  200 <= resp_status r <= 299 ->
  resp_body r = BodyText s ->
  (s = EmptyString ->
     fst (request P (Responds t r) endpoint options fresh) = Resolved (JObject [])
     /\ JObject [] <> JNull)
  /\ (forall v, s <> EmptyString -> JSON_parse P s = inr v ->
     fst (request P (Responds t r) endpoint options fresh) = Resolved v).
Proof.
  intros Hs Ht Hrange Hbody.
  rewrite (run_success_response _ _ _ _ _ _ Hs Ht (in_range_ok r Hrange)), Hbody.
  simpl. split.
  - intros ->. by split.
  - intros v Hne Hparse. by rewrite (nonempty_eqb s Hne), Hparse.
Qed.

Lemma success_response_resolves_with_decoded_body_witness :
  fst (api_get Sample.platform (Responds 120 Sample.empty_list) "/user/datasets"
         None fresh)
  = Resolved (JArray []).
Proof.
  refine (proj2 (success_response_resolves_with_decoded_body Sample.platform
                   "/user/datasets" (with_method None "GET")
                   None 120 Sample.empty_list "[]" eq_refl _ _ eq_refl) _ _ eq_refl).
  - vm_compute. discriminate.
  - simpl. lia.
  - discriminate.
Defined.

Example empty_body_resolves_with_empty_object :
  fst (api_post Sample.platform (Responds 80 Sample.no_content) "/auth/logout"
         undefined None fresh)
  = Resolved (JObject []).
Proof. reflexivity. Qed.

(** C5.  A response with a status in 200-299, arriving before the deadline,
    whose body is a non-empty text that [JSON.parse] refuses with the message
    [msg]: the call rejects with [ApiError(0, msg)]. *)
Theorem malformed_success_body_rejects_with_parser_message
    P endpoint options p t r s msg :
  serialized P (body options) = inr p ->
  t <= deadline_of options ->
  200 <= resp_status r <= 299 ->
  resp_body r = BodyText s ->
  s <> EmptyString ->
  JSON_parse P s = inl msg ->
  fst (request P (Responds t r) endpoint options fresh)
  = Rejected (Api (mkApiError 0 msg undefined)).
Proof.
  intros Hs Ht Hrange Hbody Hne Hparse.
  rewrite (run_success_response _ _ _ _ _ _ Hs Ht (in_range_ok r Hrange)), Hbody.
  simpl. by rewrite (nonempty_eqb s Hne), Hparse.
Qed.

Lemma malformed_success_body_rejects_with_parser_message_witness :
  fst (api_get Sample.platform (Responds 120 Sample.html_page) "/user/datasets"
         None fresh)
  = Rejected (Api (mkApiError 0 "Unexpected token < in JSON at position 0" undefined)).
Proof.
  refine (malformed_success_body_rejects_with_parser_message Sample.platform
            "/user/datasets" (with_method None "GET")
            None 120 Sample.html_page "<html>hello</html>" _ eq_refl _ _ eq_refl _ eq_refl).
  - vm_compute. discriminate.
  - simpl. lia.
  - discriminate.
Defined.

(** ** Transport errors (C6) *)

(** C6 as the specification states it fails on an abort that the timer did
    not cause: [fetch] rejects after 10 ms with an [AbortError]
    while the timer is armed for 30000 ms, and the call reports the client
    timeout, status 408, instead of status 0 with the exception's message. *)
Lemma abort_for_other_reasons_is_reported_as_timeout :
  fst (api_get Sample.platform (Fails 10 Sample.user_abort) "/user/datasets" None fresh)
  = Rejected (Api (mkApiError 408 "Request Timeout" undefined))
  /\ fst (api_get Sample.platform (Fails 10 Sample.user_abort) "/user/datasets" None fresh)
     <> Rejected (Api (mkApiError 0 "The user aborted a request." undefined)).
Proof.
  split; [reflexivity|]. vm_compute. discriminate.
Qed.

(** C6, amended.  When [fetch] rejects before the deadline with a platform
    exception: an [Error] whose name is not ["AbortError"] gives
    [ApiError(0, message)] with the exception's message; a thrown value that
    is not an [Error] gives [ApiError(0, "Unknown Error")]; and an [Error]
    named ["AbortError"], whatever caused the abort, gives the client
    timeout's [ApiError(408, "Request Timeout")]. *)
Theorem transport_exception_rejects_by_name P endpoint options p t e :
  serialized P (body options) = inr p ->
  t <= deadline_of options ->
  (forall name message, e = Error name message -> name <> "AbortError" ->
     fst (request P (Fails t e) endpoint options fresh)
     = Rejected (Api (mkApiError 0 message undefined)))
  /\ (forall v, e = NonError v ->
     fst (request P (Fails t e) endpoint options fresh)
     = Rejected (Api (mkApiError 0 "Unknown Error" undefined)))
  /\ (forall message, e = Error "AbortError" message ->
     fst (request P (Fails t e) endpoint options fresh)
     = Rejected (Api (mkApiError 408 "Request Timeout" undefined))).
Proof.
  intros Hs Ht. rewrite (run_fetch_fails _ _ _ _ _ _ Hs Ht). simpl.
  repeat split.
  - intros name message -> Hname. simpl.
    by rewrite (proj2 (String.eqb_neq name "AbortError") Hname).
  - by intros v ->.
  - by intros message ->.
Qed.

Lemma transport_exception_rejects_by_name_witness :
  fst (api_get Sample.platform (Fails 10 Sample.failed_to_fetch) "/user/datasets"
         None fresh)
  = Rejected (Api (mkApiError 0 "Failed to fetch" undefined)).
Proof.
  refine (proj1 (transport_exception_rejects_by_name Sample.platform
                   "/user/datasets" (with_method None "GET")
                   None 10 Sample.failed_to_fetch eq_refl _) _ _ eq_refl _).
  - vm_compute. discriminate.
  - discriminate.
Defined.

(** ** The cancellation timer (C7) *)

Ltac settled := repeat split; try done; auto.

(** C7.  Whatever the platform and the network do, at the end of the run of
    the generic call the timer is no longer armed: it was cleared, or it has
    fired, which happens only on the exit that reports the client timeout.
    Letting the clock run on afterwards changes nothing: no abort is
    delivered to a call that has settled.  The call settles on every run but
    one: a response that arrived in time and whose body never ends leaves it
    waiting, the timer cleared all the same. *)
Theorem timer_disarmed_on_every_exit P net endpoint options :
  (fst (request P net endpoint options fresh) = Pending ->
   stalls_in_time (deadline_of options) net)
  /\ (timer (snd (request P net endpoint options fresh)) = Cleared
      \/ timer (snd (request P net endpoint options fresh)) = Fired
         /\ fst (request P net endpoint options fresh) = Rejected (Api timeout_error))
  /\ (aborted (snd (request P net endpoint options fresh)) = true ->
      timer (snd (request P net endpoint options fresh)) = Fired)
  /\ (forall t, run_timers t (snd (request P net endpoint options fresh))
                = snd (request P net endpoint options fresh)).
Proof.
  split; [intros Hp; by apply request_pending_iff in Hp as [_ ?]|].
  destruct (serialized P (body options)) as [e|p] eqn:Hs.
  { rewrite (run_not_serializable _ _ _ _ _ Hs). simpl. settled. }
  destruct (race (deadline_of options) net) as [H|[(t & r & -> & Ht)|(t & e & -> & Ht)]].
  - rewrite (run_timer_first _ _ _ _ _ Hs H). simpl. settled.
  - destruct (ok r) eqn:Hok.
    + rewrite (run_success_response _ _ _ _ _ _ Hs Ht Hok). simpl. settled.
    + rewrite (run_failure_response _ _ _ _ _ _ Hs Ht Hok). simpl. settled.
  - rewrite (run_fetch_fails _ _ _ _ _ _ Hs Ht). simpl. settled.
Qed.

Lemma timer_disarmed_on_every_exit_witness :
  timer (snd (request Sample.platform Silent "/user/datasets"
                (mkRequestOptions undefined (Some 50) no_init) fresh)) = Fired.
Proof.
  exact (proj1 (proj2 (proj2 (timer_disarmed_on_every_exit Sample.platform Silent
                                "/user/datasets"
                                (mkRequestOptions undefined (Some 50) no_init))))
           eq_refl).
Defined.

Example cleared_timer_never_fires :
  run_timers 60000
    (snd (api_get Sample.platform (Responds 120 Sample.empty_list) "/user/datasets"
            None fresh))
  = mkWorld 120 Cleared false
      [issued Sample.platform "/user/datasets" (with_method None "GET") None].
Proof. reflexivity. Qed.

(** ** What the generic path sends (C8, C10) *)

(** The headers object [{ 'Content-Type': 'application/json', ...init.headers }],
    key by key, when the caller's headers are a plain object: a key of the
    caller keeps the caller's value, and [Content-Type] gets the default only
    when the caller did not set that very key. *)
Lemma merged_headers_lookup (caller : gmap string string) (k : string) :
  ((HeaderText <$> caller) ∪ {[ "Content-Type" := HeaderText "application/json" ]}) !! k
  = match caller !! k with
    | Some v => Some (HeaderText v)
    | None =>
        if decide (k = "Content-Type") then Some (HeaderText "application/json")
        else None
    end.
Proof.
  destruct (caller !! k) as [v|] eqn:Hk.
  - apply lookup_union_Some_l. by rewrite lookup_fmap, Hk.
  - rewrite lookup_union_r by (by rewrite lookup_fmap, Hk).
    case_decide as Hct.
    + subst k. apply lookup_singleton_eq.
    + by apply lookup_singleton_ne.
Qed.

(** The same object when the spread copies nothing. *)
Lemma default_headers_lookup (k : string) :
  ((∅ : gmap string header_value)
   ∪ {[ "Content-Type" := HeaderText "application/json" ]}) !! k
  = if decide (k = "Content-Type") then Some (HeaderText "application/json") else None.
Proof.
  rewrite (left_id_L ∅ (∪)). case_decide as Hct.
  - subst k. apply lookup_singleton_eq.
  - by apply lookup_singleton_ne.
Qed.

(** An array of pairs spread into an object: each element sits under its
    index, and no property is a string. *)
Lemma index_entries_lookup pairs i j :
  index_entries i pairs !! pretty (i + j)%nat
  = (fun kv => HeaderPair (fst kv) (snd kv)) <$> pairs !! j.
Proof.
  revert i j. induction pairs as [|kv rest IH]; intros i j; simpl.
  - by rewrite lookup_empty.
  - destruct j as [|j]; simpl.
    + rewrite Nat.add_0_r. apply lookup_insert_eq.
    + rewrite lookup_insert_ne.
      * replace (i + S j)%nat with (S i + j)%nat by lia. apply IH.
      * intros Heq. apply (inj pretty) in Heq. lia.
Qed.

(** The index of an array element is never the name [Content-Type]. *)
Lemma pretty_N_go_ne_name x s s' :
  s <> "C" +:+ s' -> pretty_N_go x s <> "C" +:+ s'.
Proof.
  revert s. induction (N.lt_wf_0 x) as [x _ IH]; intros s Hs.
  assert (x = 0 \/ 0 < x)%N as [->|Hx] by lia.
  - by rewrite pretty_N_go_0.
  - rewrite pretty_N_go_step by done. apply IH.
    { by apply N.div_lt. }
    unfold pretty_N_char. by repeat case_match.
Qed.

Lemma pretty_nat_ne_content_type (i : nat) : pretty i <> "Content-Type".
Proof.
  unfold pretty, pretty_nat, pretty, pretty_N.
  case_decide; [done|]. by apply pretty_N_go_ne_name.
Qed.

Lemma index_entries_no_name pairs i :
  index_entries i pairs !! "Content-Type" = None.
Proof.
  revert i. induction pairs as [|kv rest IH]; intros i; simpl.
  - by rewrite lookup_empty.
  - rewrite lookup_insert_ne by apply pretty_nat_ne_content_type. apply IH.
Qed.

Lemma index_entries_no_text pairs i k v :
  index_entries i pairs !! k <> Some (HeaderText v).
Proof.
  revert i. induction pairs as [|kv rest IH]; intros i; simpl.
  - by rewrite lookup_empty.
  - destruct (decide (pretty i = k)) as [<-|Hne].
    + by rewrite lookup_insert_eq.
    + rewrite lookup_insert_ne by done. apply IH.
Qed.

Lemma serialized_truthy P b p :
  truthy b = true -> serialized P b = inr p -> JSON_stringify P b = inr p.
Proof.
  unfold serialized. by intros ->.
Qed.

Lemma serialized_falsy P b : truthy b = false -> serialized P b = inr None.
Proof.
  unfold serialized. by intros ->.
Qed.

(** C8 as the specification states it fails on a body that is present but
    falsy: [api.post('/generator/form', 0)] has the body [0], whose
    serialization is the text [0], and sends a request without any body.  It
    also fails on the caller's headers: given as a [Headers] instance, none
    of them is in the headers object that is sent, and [Content-Type] stays
    [application/json]; given as a plain object with the key
    [content-type], the default [Content-Type] stays beside it. *)
Lemma falsy_body_and_headers_instance_are_not_sent :
  (Json (JNum 0) <> undefined
   /\ JSON_stringify Sample.platform (Json (JNum 0)) = inr (Some "0")
   /\ map (fun c => r_body (opts c))
        (sent (snd (api_post Sample.platform (Responds 120 Sample.no_content)
                      "/generator/form" (Json (JNum 0)) None fresh)))
      = [None])
  /\ map (fun c => (fun h => (h !! "X-Request-Id", h !! "Content-Type"))
                     <$> r_headers (opts c))
       (sent (snd (api_get Sample.platform Silent "/user/datasets"
                     (Some (mkRequestOptions undefined None
                              (mkInitRest None
                                 (Some (HeadersObject [("X-Request-Id", "42");
                                                       ("Content-Type", "text/plain")]))
                                 None None [])))
                     fresh)))
     = [Some (None, Some (HeaderText "application/json"))]
  /\ map (fun c => (fun h => (h !! "content-type", h !! "Content-Type"))
                     <$> r_headers (opts c))
       (sent (snd (api_get Sample.platform Silent "/user/datasets"
                     (Some (mkRequestOptions undefined None
                              (mkInitRest None
                                 (Some (PlainObject {[ "content-type" := "text/plain" ]}))
                                 None None [])))
                     fresh)))
     = [Some (Some (HeaderText "text/plain"), Some (HeaderText "application/json"))].
Proof.
  split; [split; [discriminate|split; reflexivity]|].
  split; vm_compute; reflexivity.
Qed.

(** C8, amended.  A generic call whose body serializes without throwing
    issues exactly one [fetch]: to the base URL ([VITE_API_BASE_URL], or
    [/api]) followed by the endpoint, with the caller's method, with
    [credentials: 'include'] whatever the caller asked for, and with the body
    [JSON.stringify(body)] when [body] is truthy and no body when it is
    falsy.  Its headers object depends on the form of the caller's headers.
    From a plain object every entry is kept under its key as written, and
    [Content-Type] is [application/json] unless the caller set that very
    key.  From a [Headers] instance, as from no headers at all, nothing is
    taken: the object holds [Content-Type: application/json] alone.  From an
    array of pairs the pairs are taken under their indices: the object holds
    the default [Content-Type], and that is its only header with a text. *)
Theorem request_is_issued_with_credentials_headers_and_body
    P net endpoint options p :
  serialized P (body options) = inr p ->
  exists c h,
    sent (snd (request P net endpoint options fresh)) = [c]
    /\ url c = or_else (VITE_API_BASE_URL P) "/api" +:+ endpoint
    /\ r_method (opts c) = method (init options)
    /\ r_credentials (opts c) = Some "include"
    /\ r_headers (opts c) = Some h
    /\ match headers (init options) with
       | Some (PlainObject caller) =>
           forall k, h !! k
             = match caller !! k with
               | Some v => Some (HeaderText v)
               | None =>
                   if decide (k = "Content-Type")
                   then Some (HeaderText "application/json") else None
               end
       | Some (PairsArray pairs) =>
           (forall i name v, pairs !! i = Some (name, v) ->
              h !! pretty i = Some (HeaderPair name v))
           /\ h !! "Content-Type" = Some (HeaderText "application/json")
           /\ (forall k v, h !! k = Some (HeaderText v) ->
               k = "Content-Type" /\ v = "application/json")
       | Some (HeadersObject _) | None =>
           forall k, h !! k
             = if decide (k = "Content-Type")
               then Some (HeaderText "application/json") else None
       end
    /\ (truthy (body options) = true ->
        JSON_stringify P (body options) = inr p
        /\ r_body (opts c) = TextBody <$> p)
    /\ (truthy (body options) = false -> r_body (opts c) = None).
Proof.
  intros Hs. exists (issued P endpoint options p). eexists.
  split; [by apply run_sent|]. simpl.
  split; [done|]. split; [done|]. split; [done|]. split; [reflexivity|].
  split; [|split].
  - destruct (headers (init options)) as [[caller|entries|pairs]|]; simpl.
    + apply merged_headers_lookup.
    + apply default_headers_lookup.
    + split; [|split].
      * intros i name v Hi. apply lookup_union_Some_l.
        pose proof (index_entries_lookup pairs 0 i) as Hl. cbn [Nat.add] in Hl.
        by rewrite Hl, Hi.
      * rewrite lookup_union_r by apply index_entries_no_name.
        apply lookup_singleton_eq.
      * intros k v [Hl|[_ Hr]]%lookup_union_Some_raw.
        -- by apply index_entries_no_text in Hl.
        -- apply lookup_singleton_Some in Hr as [<- [= <-]]. by split.
    + apply default_headers_lookup.
  - intros Ht. split; [by apply serialized_truthy|done].
  - intros Hf. rewrite (serialized_falsy P _ Hf) in Hs. by inversion Hs.
Qed.

Lemma request_is_issued_with_credentials_headers_and_body_witness :
  exists c h,
    sent (snd (api_post Sample.platform (Responds 120 Sample.unauthorized)
                 "/auth/login" Sample.login
                 (Some (mkRequestOptions undefined None
                          (mkInitRest None
                             (Some (PlainObject {[ "Content-Type" := "text/plain" ]}))
                             (Some "omit") None [])))
                 fresh)) = [c]
    /\ url c = "/api/auth/login"
    /\ r_credentials (opts c) = Some "include"
    /\ r_headers (opts c) = Some h
    /\ h !! "Content-Type" = Some (HeaderText "text/plain").
Proof.
  destruct (request_is_issued_with_credentials_headers_and_body Sample.platform
              (Responds 120 Sample.unauthorized) "/auth/login"
              (with_method_body
                 (Some (mkRequestOptions undefined None
                          (mkInitRest None
                             (Some (PlainObject {[ "Content-Type" := "text/plain" ]}))
                             (Some "omit") None [])))
                 "POST" Sample.login)
              _ eq_refl)
    as (c & h & Hsent & Hurl & _ & Hcred & Hh & Hlookup & _).
  exists c, h. split; [exact Hsent|]. split; [exact Hurl|]. split; [exact Hcred|].
  split; [exact Hh|]. exact (Hlookup "Content-Type").
Defined.

(** C10.  A generic call whose [body] is falsy, [undefined] or not ([0], the
    empty string, [false] and [null] are falsy), issues its [fetch] with no
    body; a call whose [body] is truthy and serializes to the text [s]
    issues it with the body [s]. *)
Theorem falsy_body_is_sent_as_no_body P net endpoint options :
  Forall (fun v => v <> undefined /\ truthy v = false)
    [Json (JNum 0); Json (JString EmptyString); Json (JBool false); Json JNull]
  /\ (truthy (body options) = false ->
      exists c, sent (snd (request P net endpoint options fresh)) = [c]
                /\ r_body (opts c) = None)
  /\ (forall s, truthy (body options) = true ->
      JSON_stringify P (body options) = inr (Some s) ->
      exists c, sent (snd (request P net endpoint options fresh)) = [c]
                /\ r_body (opts c) = Some (TextBody s)).
Proof.
  split; [by repeat constructor|]. split.
  - intros Hf. exists (issued P endpoint options None).
    split; [|reflexivity]. apply run_sent. by apply serialized_falsy.
  - intros s Ht Hs. exists (issued P endpoint options (Some s)).
    split; [|reflexivity]. apply run_sent. unfold serialized. by rewrite Ht.
Qed.

Lemma falsy_body_is_sent_as_no_body_witness :
  (exists c, sent (snd (api_post Sample.platform Silent "/generator/form"
                          (Json (JBool false)) None fresh)) = [c]
             /\ r_body (opts c) = None)
  /\ (exists c, sent (snd (api_post Sample.platform Silent "/generator/form"
                             (Json (JNum 7)) None fresh)) = [c]
                /\ r_body (opts c) = Some (TextBody "7")).
Proof.
  split.
  - exact (proj1 (proj2 (falsy_body_is_sent_as_no_body Sample.platform Silent
                           "/generator/form"
                           (with_method_body None "POST" (Json (JBool false)))))
             eq_refl).
  - exact (proj2 (proj2 (falsy_body_is_sent_as_no_body Sample.platform Silent
                           "/generator/form"
                           (with_method_body None "POST" (Json (JNum 7)))))
             "7" eq_refl eq_refl).
Defined.

(** ** The upload helper (C9) *)

(** C9.  An upload issues exactly one [fetch]: a POST to the base URL
    followed by the endpoint, with [credentials: 'include'], no headers
    object and no abort signal, whose body is a form with the file under
    the name [file] followed by one part for each extra field.  A response
    outside 200-299 makes it reject with the same [ApiError] (status, status
    text, parsed detail or [null]) as the generic path gives on that
    response; a response in 200-299 whose body parses makes it resolve with
    the parsed value.  No timer is armed and no abort is ever delivered:
    a response is taken however late it arrives, and when none arrives, or
    when the body of the one that arrived never ends, the call stays
    pending. *)
Theorem upload_posts_multipart_form_without_timeout P endpoint file extra :
  (forall net, exists parts,
     sent (snd (uploadFile P net endpoint file extra fresh))
     = [ {| url := or_else (VITE_API_BASE_URL P) "/api" +:+ endpoint;
            opts := {| r_method := Some "POST";
                       r_headers := None;
                       r_credentials := Some "include";
                       r_signal := None;
                       r_body := Some (FormBody parts);
                       r_other := [] |} |} ]
     /\ parts = ("file", FileEntry file)
                :: map (fun kv => (fst kv, StringEntry (snd kv))) (default [] extra)
     /\ length parts = S (length (default [] extra))
     /\ timer (snd (uploadFile P net endpoint file extra fresh)) = Idle
     /\ aborted (snd (uploadFile P net endpoint file extra fresh)) = false)
  /\ (forall t r, ~ (200 <= resp_status r <= 299) ->
      (resp_body r <> BodyStalls ->
       exists e, fst (uploadFile P (Responds t r) endpoint file extra fresh)
                 = Rejected (Api e)
                 /\ status e = resp_status r
                 /\ statusText e = resp_statusText r)
      /\ forall endpoint' options p t',
           serialized P (body options) = inr p ->
           t' <= deadline_of options ->
           fst (uploadFile P (Responds t r) endpoint file extra fresh)
           = fst (request P (Responds t' r) endpoint' options fresh))
  /\ (forall t r s v, 200 <= resp_status r <= 299 ->
      resp_body r = BodyText s -> JSON_parse P s = inr v ->
      fst (uploadFile P (Responds t r) endpoint file extra fresh) = Resolved v)
  /\ (forall t t' r,
      fst (uploadFile P (Responds t r) endpoint file extra fresh)
      = fst (uploadFile P (Responds t' r) endpoint file extra fresh))
  /\ fst (uploadFile P Silent endpoint file extra fresh) = Pending
  /\ (forall t r, resp_body r = BodyStalls ->
      fst (uploadFile P (Responds t r) endpoint file extra fresh) = Pending).
Proof.
  split; [|split; [|split; [|split; [|split]]]].
  - intros net. eexists. rewrite upload_run.
    destruct net; simpl; (split; [reflexivity|]);
      (split; [reflexivity|]); simpl; by rewrite length_fmap.
  - intros t r Hrange.
    assert (Hok : ok r = false).
    { unfold ok. apply andb_false_iff.
      destruct (Z.leb_spec 200 (resp_status r)); [|by left].
      destruct (Z.leb_spec (resp_status r) 299); [lia|by right]. }
    rewrite upload_run. cbn [fst]. rewrite Hok. split.
    + intros Hread. unfold detail_of.
      destruct (resp_body r) as [s|e|]; [by eexists|by eexists|done].
    + intros endpoint' options p t' Hs Ht'.
      rewrite (run_failure_response _ _ _ _ _ _ Hs Ht' Hok). cbn [fst].
      unfold detail_of. by destruct (resp_body r).
  - intros t r s v Hrange Hbody Hparse. rewrite upload_run. simpl.
    by rewrite (in_range_ok r Hrange), Hbody, Hparse.
  - intros t t' r. by rewrite !upload_run.
  - by rewrite upload_run.
  - intros t r Hbody. rewrite upload_run. cbn [fst]. by rewrite Hbody.
Qed.

Lemma upload_posts_multipart_form_without_timeout_witness :
  exists e,
    fst (uploadFile Sample.platform (Responds 90000 Sample.unauthorized)
           "/analyzer/upload" Sample.csv
           (Some [("prompt", "monthly totals"); ("format", "bar")]) fresh)
    = Rejected (Api e)
    /\ status e = 401
    /\ statusText e = "Unauthorized".
Proof.
  refine (proj1 (proj1 (proj2 (upload_posts_multipart_form_without_timeout
                                 Sample.platform "/analyzer/upload" Sample.csv
                                 (Some [("prompt", "monthly totals"); ("format", "bar")])))
                   90000 Sample.unauthorized _) _).
  - simpl. lia.
  - discriminate.
Defined.

Example upload_with_two_fields_has_three_parts :
  map (fun c => r_body (opts c))
    (sent (snd (uploadFile Sample.platform Silent "/analyzer/upload" Sample.csv
                  (Some [("prompt", "monthly totals"); ("format", "bar")]) fresh)))
  = [Some (FormBody [("file", FileEntry Sample.csv);
                     ("prompt", StringEntry "monthly totals");
                     ("format", StringEntry "bar")])].
Proof. reflexivity. Qed.

(** * More of the client *)

(** ** The verb helpers *)

Lemma sent_methods P net endpoint options p :
  serialized P (body options) = inr p ->
  map (fun c => r_method (opts c)) (sent (snd (request P net endpoint options fresh)))
  = [method (init options)].
Proof.
  intros Hs. by rewrite (run_sent _ _ _ _ _ Hs).
Qed.

(** X1.  Each verb helper fixes the method of the request it issues, whatever
    method the caller's options name: [get] and [delete] send the options as
    they are with the method replaced, [post], [put] and [patch] also take
    their body from the [body] argument. *)
Theorem verb_helpers_fix_the_method P net endpoint b options p q :
  serialized P (body (default no_options options)) = inr p ->
  serialized P b = inr q ->
  map (fun c => r_method (opts c)) (sent (snd (api_get P net endpoint options fresh)))
  = [Some "GET"]
  /\ map (fun c => r_method (opts c))
       (sent (snd (api_delete P net endpoint options fresh))) = [Some "DELETE"]
  /\ map (fun c => r_method (opts c))
       (sent (snd (api_post P net endpoint b options fresh))) = [Some "POST"]
  /\ map (fun c => r_method (opts c))
       (sent (snd (api_put P net endpoint b options fresh))) = [Some "PUT"]
  /\ map (fun c => r_method (opts c))
       (sent (snd (api_patch P net endpoint b options fresh))) = [Some "PATCH"].
Proof.
  intros Hp Hq.
  unfold api_get, api_delete, api_post, api_put, api_patch.
  repeat split; by (eapply sent_methods; simpl; eauto).
Qed.

Lemma verb_helpers_fix_the_method_witness :
  map (fun c => r_method (opts c))
    (sent (snd (api_post Sample.platform Silent "/auth/login" Sample.login
                  (Some (mkRequestOptions undefined None
                           (mkInitRest (Some "GET") None None None [])))
                  fresh)))
  = [Some "POST"].
Proof.
  exact (proj1 (proj2 (proj2 (verb_helpers_fix_the_method Sample.platform Silent
                                "/auth/login" Sample.login
                                (Some (mkRequestOptions undefined None
                                         (mkInitRest (Some "GET") None None None [])))
                                None _ eq_refl eq_refl)))).
Defined.

(** X2.  [post], [put] and [patch] take the body from their [body] argument
    alone: when that argument is falsy (left out, for one) no request they
    issue has a body, whatever [options.body] holds. *)
Theorem falsy_body_argument_sends_no_body P net endpoint b options :
  truthy b = false ->
  Forall (fun c => r_body (opts c) = None)
    (sent (snd (api_post P net endpoint b options fresh))
     ++ sent (snd (api_put P net endpoint b options fresh))
     ++ sent (snd (api_patch P net endpoint b options fresh))).
Proof.
  intros Hb. unfold api_post, api_put, api_patch.
  rewrite !(run_sent P _ _ _ None) by (by apply serialized_falsy).
  by repeat constructor.
Qed.

Lemma falsy_body_argument_sends_no_body_witness :
  Forall (fun c => r_body (opts c) = None)
    (sent (snd (api_post Sample.platform Silent "/auth/logout" undefined
                  (Some (mkRequestOptions Sample.login None no_init)) fresh))
     ++ sent (snd (api_put Sample.platform Silent "/auth/logout" undefined
                     (Some (mkRequestOptions Sample.login None no_init)) fresh))
     ++ sent (snd (api_patch Sample.platform Silent "/auth/logout" undefined
                     (Some (mkRequestOptions Sample.login None no_init)) fresh))).
Proof.
  exact (falsy_body_argument_sends_no_body Sample.platform Silent "/auth/logout"
           undefined (Some (mkRequestOptions Sample.login None no_init)) eq_refl).
Defined.

(** ** Requests that are never sent, and requests sent once *)

(** X3.  When [JSON.stringify(body)] throws an [Error] (a circular structure,
    a [BigInt]), the call rejects at once with [ApiError(0, message)] carrying
    the exception's message: [fetch] is never called, and the timer that was
    armed is cleared. *)
Theorem unserializable_body_rejects_before_any_fetch
    P net endpoint options name message :
  truthy (body options) = true ->
  JSON_stringify P (body options) = inl (Error name message) ->
  name <> "AbortError" ->
  request P net endpoint options fresh
  = (Rejected (Api (mkApiError 0 message undefined)), mkWorld 0 Cleared false []).
Proof.
  intros Ht Hthrow Hname.
  rewrite (run_not_serializable P endpoint options net (Error name message)).
  - simpl. by rewrite (proj2 (String.eqb_neq name "AbortError") Hname).
  - unfold serialized. by rewrite Ht.
Qed.

Lemma unserializable_body_rejects_before_any_fetch_witness :
  api_post SampleApp.circular (Responds 120 Sample.empty_list) "/generator/form"
    Sample.login None fresh
  = (Rejected (Api (mkApiError 0 "Converting circular structure to JSON" undefined)),
     mkWorld 0 Cleared false []).
Proof.
  refine (unserializable_body_rejects_before_any_fetch SampleApp.circular
            (Responds 120 Sample.empty_list) "/generator/form"
            (with_method_body None "POST" Sample.login)
            "TypeError" _ eq_refl eq_refl _).
  discriminate.
Defined.

(** X4.  A generic call calls [fetch] at most once, whatever happens (there
    is no retry), and not at all exactly when serializing the body throws. *)
Theorem at_most_one_fetch_per_call P net endpoint options :
  (length (sent (snd (request P net endpoint options fresh))) <= 1)%nat
  /\ (sent (snd (request P net endpoint options fresh)) = []
      <-> exists e, serialized P (body options) = inl e).
Proof.
  destruct (serialized P (body options)) as [e|p] eqn:Hs.
  - rewrite (run_not_serializable _ _ _ _ _ Hs). simpl. split; [lia|].
    split; [intros _; by exists e|done].
  - rewrite (run_sent _ _ _ _ _ Hs). simpl. split; [lia|].
    split; [done|]. by intros [e He].
Qed.

(** X5.  Every [fetch] of the generic path carries the signal of the call's
    own controller, and the run does not depend on the [signal] or the
    [credentials] the caller put in the options: a caller cannot cancel a
    call, nor send it without credentials. *)
Theorem caller_signal_and_credentials_never_reach_fetch
    P net endpoint options sig cred :
  Forall (fun c => r_signal (opts c) = Some ControllerSignal)
    (sent (snd (request P net endpoint options fresh)))
  /\ request P net endpoint
       (mkRequestOptions (body options) (timeout options)
          (mkInitRest (method (init options)) (headers (init options)) cred sig
             (other (init options))))
       fresh
     = request P net endpoint options fresh.
Proof.
  split; [|reflexivity].
  destruct (serialized P (body options)) as [e|p] eqn:Hs.
  - rewrite (run_not_serializable _ _ _ _ _ Hs). constructor.
  - rewrite (run_sent _ _ _ _ _ Hs). by repeat constructor.
Qed.

(** ** What an outcome tells about the exchange *)

Lemma resolved_needs_success_status P net endpoint options v :
  fst (request P net endpoint options fresh) = Resolved v ->
  exists t r, net = Responds t r /\ 200 <= resp_status r <= 299.
Proof.
  destruct (serialized P (body options)) as [e|p] eqn:Hs.
  { by rewrite (run_not_serializable _ _ _ _ _ Hs). }
  destruct (race (deadline_of options) net) as [H|[(t & r & -> & Ht)|(t & e & -> & Ht)]].
  - by rewrite (run_timer_first _ _ _ _ _ Hs H).
  - destruct (ok r) eqn:Hok.
    + intros _. exists t, r. split; [done|].
      apply andb_true_iff in Hok as [Hlo%Z.leb_le Hhi%Z.leb_le]. lia.
    + rewrite (run_failure_response _ _ _ _ _ _ Hs Ht Hok).
      by destruct (resp_body r).
  - by rewrite (run_fetch_fails _ _ _ _ _ _ Hs Ht).
Qed.

(** X6.  A generic call resolves only on a response with a status in 200-299
    that arrived before the deadline and whose body could be read; the value
    is [{}] when the body is empty and what [JSON.parse] makes of it
    otherwise. *)
Theorem resolution_means_success_response P net endpoint options v :
  fst (request P net endpoint options fresh) = Resolved v ->
  exists t r s,
    net = Responds t r
    /\ t <= deadline_of options
    /\ 200 <= resp_status r <= 299
    /\ resp_body r = BodyText s
    /\ (s = EmptyString /\ v = JObject []
        \/ s <> EmptyString /\ JSON_parse P s = inr v).
Proof.
  destruct (serialized P (body options)) as [e|p] eqn:Hs.
  { by rewrite (run_not_serializable _ _ _ _ _ Hs). }
  destruct (race (deadline_of options) net) as [H|[(t & r & -> & Ht)|(t & e & -> & Ht)]].
  - by rewrite (run_timer_first _ _ _ _ _ Hs H).
  - destruct (ok r) eqn:Hok.
    + rewrite (run_success_response _ _ _ _ _ _ Hs Ht Hok). simpl.
      intros Hv. exists t, r.
      apply andb_true_iff in Hok as [Hlo%Z.leb_le Hhi%Z.leb_le].
      destruct (resp_body r) as [s|e|]; [|done|done]. exists s.
      split; [done|]. split; [done|]. split; [done|]. split; [done|].
      destruct (String.eqb_spec s EmptyString) as [Hs0|Hne].
      * left. split; [done|]. by inversion Hv.
      * right. split; [done|]. destruct (JSON_parse P s); [done|]. by inversion Hv.
    + rewrite (run_failure_response _ _ _ _ _ _ Hs Ht Hok).
      by destruct (resp_body r).
  - by rewrite (run_fetch_fails _ _ _ _ _ _ Hs Ht).
Qed.

Lemma resolution_means_success_response_witness :
  exists t r s,
    Responds 120 Sample.empty_list = Responds t r
    /\ t <= 30000
    /\ 200 <= resp_status r <= 299
    /\ resp_body r = BodyText s
    /\ (s = EmptyString /\ JArray [] = JObject []
        \/ s <> EmptyString /\ Sample.parse_table s = inr (JArray [])).
Proof.
  exact (resolution_means_success_response Sample.platform
           (Responds 120 Sample.empty_list) "/user/datasets"
           (with_method None "GET") (JArray []) eq_refl).
Defined.

Lemma normalized_classified net e :
  (status (normalized e) = 0 \/ status (normalized e) = 408
   \/ exists t r, net = Responds t r /\ status (normalized e) = resp_status r)
  /\ ~ (200 <= status (normalized e) <= 299).
Proof.
  destruct e as [name message|v]; simpl; [|split; [auto|lia]].
  destruct (String.eqb name "AbortError"); simpl; (split; [auto|lia]).
Qed.

(** X7.  A generic call rejects with an [ApiError] only, and the status of
    that error is 0, 408 or the status of the response that arrived; it is
    never a status of the range 200-299. *)
Theorem rejection_status_is_0_408_or_the_response_status P net endpoint options x :
  fst (request P net endpoint options fresh) = Rejected x ->
  exists e,
    x = Api e
    /\ (status e = 0 \/ status e = 408
        \/ exists t r, net = Responds t r /\ status e = resp_status r)
    /\ ~ (200 <= status e <= 299).
Proof.
  destruct (serialized P (body options)) as [e|p] eqn:Hs.
  { rewrite (run_not_serializable _ _ _ _ _ Hs). simpl. intros [= <-].
    eexists; split; [done|]. apply normalized_classified. }
  destruct (race (deadline_of options) net) as [H|[(t & r & -> & Ht)|(t & e & -> & Ht)]].
  - rewrite (run_timer_first _ _ _ _ _ Hs H). simpl. intros [= <-].
    eexists; split; [done|]. simpl. split; [auto|lia].
  - destruct (ok r) eqn:Hok.
    + rewrite (run_success_response _ _ _ _ _ _ Hs Ht Hok). simpl.
      destruct (resp_body r) as [s|e|]; [| |done].
      * destruct (String.eqb s EmptyString); [done|].
        destruct (JSON_parse P s) as [msg|?]; [|done].
        intros [= <-]. eexists; split; [done|]. simpl. split; [auto|lia].
      * intros [= <-]. eexists; split; [done|]. apply normalized_classified.
    + rewrite (run_failure_response _ _ _ _ _ _ Hs Ht Hok). simpl.
      assert (Hout : ~ (200 <= resp_status r <= 299)).
      { unfold ok in Hok.
        apply andb_false_iff in Hok as [H%Z.leb_gt|H%Z.leb_gt]; lia. }
      destruct (resp_body r) as [s|e|]; [| |done];
        (intros [= <-]; eexists; (split; [done|]); simpl; split; [by eauto 6|done]).
  - rewrite (run_fetch_fails _ _ _ _ _ _ Hs Ht). simpl. intros [= <-].
    eexists; split; [done|]. apply normalized_classified.
Qed.

Lemma rejection_status_is_0_408_or_the_response_status_witness :
  exists e,
    Api (mkApiError 401 "Unauthorized" (Json Sample.invalid_credentials)) = Api e
    /\ (status e = 0 \/ status e = 408
        \/ exists t r, Responds 120 Sample.unauthorized = Responds t r
                       /\ status e = resp_status r)
    /\ ~ (200 <= status e <= 299).
Proof.
  exact (rejection_status_is_0_408_or_the_response_status Sample.platform
           (Responds 120 Sample.unauthorized) "/auth/login"
           (with_method_body None "POST" Sample.login) _ eq_refl).
Defined.

(** X8.  When a response with a status in 200-299 arrives in time but reading
    its body fails with an [Error], the call rejects with [ApiError(0,
    message)] carrying that error's message, as for a failure of [fetch]
    itself. *)
Theorem unreadable_success_body_is_normalized
    P endpoint options p t r name message :
  serialized P (body options) = inr p ->
  t <= deadline_of options ->
  200 <= resp_status r <= 299 ->
  resp_body r = BodyFails (Error name message) ->
  name <> "AbortError" ->
  fst (request P (Responds t r) endpoint options fresh)
  = Rejected (Api (mkApiError 0 message undefined)).
Proof.
  intros Hs Ht Hrange Hbody Hname.
  rewrite (run_success_response _ _ _ _ _ _ Hs Ht (in_range_ok r Hrange)), Hbody.
  simpl. by rewrite (proj2 (String.eqb_neq name "AbortError") Hname).
Qed.

Lemma unreadable_success_body_is_normalized_witness :
  fst (api_get Sample.platform
         (Responds 120 (mkResponse 200 "OK" (BodyFails (Error "TypeError" "network error"))))
         "/user/datasets" None fresh)
  = Rejected (Api (mkApiError 0 "network error" undefined)).
Proof.
  refine (unreadable_success_body_is_normalized Sample.platform "/user/datasets"
            (with_method None "GET") None 120
            (mkResponse 200 "OK" (BodyFails (Error "TypeError" "network error")))
            "TypeError" "network error" eq_refl _ _ eq_refl _).
  - vm_compute. discriminate.
  - simpl. lia.
  - discriminate.
Defined.

(** X9.  A [timeout] of 0 or less does not switch the timer off: it is armed
    for the start of the call, so a request that is issued and gets nothing
    from the network at time 0 is reported as a client timeout at time 0. *)
Theorem nonpositive_timeout_expires_at_once P net endpoint options p d :
  serialized P (body options) = inr p ->
  timeout options = Some d ->
  d <= 0 ->
  elapses_first 0 net ->
  fst (request P net endpoint options fresh) = Rejected (Api timeout_error)
  /\ now (snd (request P net endpoint options fresh)) = 0.
Proof.
  intros Hs Hd Hle Hnet.
  assert (Hdl : deadline_of options = 0).
  { unfold deadline_of. rewrite Hd. simpl. lia. }
  rewrite (run_timer_first P endpoint options net p Hs); [by rewrite Hdl|].
  by rewrite Hdl.
Qed.

Lemma nonpositive_timeout_expires_at_once_witness :
  fst (request Sample.platform (Responds 1 Sample.empty_list) "/user/datasets"
         (mkRequestOptions undefined (Some 0) no_init) fresh)
  = Rejected (Api timeout_error)
  /\ now (snd (request Sample.platform (Responds 1 Sample.empty_list) "/user/datasets"
                 (mkRequestOptions undefined (Some 0) no_init) fresh)) = 0.
Proof.
  refine (nonpositive_timeout_expires_at_once Sample.platform
            (Responds 1 Sample.empty_list) "/user/datasets"
            (mkRequestOptions undefined (Some 0) no_init) None 0
            eq_refl eq_refl _ _).
  - lia.
  - simpl. lia.
Defined.

(** ** The two paths side by side *)

(** X10.  On a response with a status in 200-299 and an empty body the two
    paths part: the generic call resolves with [{}], while the upload helper
    hands the empty text to the parser and rejects with the [SyntaxError] the
    parser raises on it.  On a non-empty body that parses they resolve with
    the same value. *)
Theorem empty_success_body_resolves_request_and_rejects_upload
    P endpoint options p t t' r file extra msg :
  JSON_parse P EmptyString = inl msg ->
  serialized P (body options) = inr p ->
  t <= deadline_of options ->
  200 <= resp_status r <= 299 ->
  (resp_body r = BodyText EmptyString ->
     fst (request P (Responds t r) endpoint options fresh) = Resolved (JObject [])
     /\ fst (uploadFile P (Responds t' r) endpoint file extra fresh)
        = Rejected (Raw (Error "SyntaxError" msg)))
  /\ (forall s v, resp_body r = BodyText s -> s <> EmptyString -> JSON_parse P s = inr v ->
     fst (request P (Responds t r) endpoint options fresh) = Resolved v
     /\ fst (uploadFile P (Responds t' r) endpoint file extra fresh) = Resolved v).
Proof.
  intros Hempty Hs Ht Hrange.
  rewrite (run_success_response _ _ _ _ _ _ Hs Ht (in_range_ok r Hrange)).
  rewrite upload_run. simpl. rewrite (in_range_ok r Hrange). split.
  - intros ->. by rewrite Hempty.
  - intros s v -> Hne Hparse. by rewrite (nonempty_eqb s Hne), Hparse.
Qed.

Lemma empty_success_body_resolves_request_and_rejects_upload_witness :
  fst (api_post SampleApp.platform (Responds 80 Sample.no_content) "/analyzer/upload"
         Sample.login None fresh) = Resolved (JObject [])
  /\ fst (uploadFile SampleApp.platform (Responds 80 Sample.no_content)
            "/analyzer/upload" Sample.csv None fresh)
     = Rejected (Raw (Error "SyntaxError" "Unexpected end of JSON input")).
Proof.
  refine (proj1 (empty_success_body_resolves_request_and_rejects_upload
                   SampleApp.platform "/analyzer/upload"
                   (with_method_body None "POST" Sample.login) _ 80 80
                   Sample.no_content Sample.csv None _ eq_refl eq_refl _ _) eq_refl).
  - vm_compute. discriminate.
  - simpl. lia.
Defined.

(** X11.  Every request of either path goes to the base URL followed by the
    endpoint, where the base URL is the environment's [VITE_API_BASE_URL]
    when that is set to a non-empty string, and [/api] when it is not set
    or set to the empty string; so the base URL is never empty. *)
Theorem requests_go_to_the_configured_base_url
    P net endpoint options file extra p base :
  serialized P (body options) = inr p ->
  (VITE_API_BASE_URL P = Some base /\ base <> EmptyString
   \/ (VITE_API_BASE_URL P = None \/ VITE_API_BASE_URL P = Some EmptyString)
      /\ base = "/api") ->
  map url (sent (snd (request P net endpoint options fresh))) = [base +:+ endpoint]
  /\ map url (sent (snd (uploadFile P net endpoint file extra fresh)))
     = [base +:+ endpoint]
  /\ API_BASE_URL P = base
  /\ base <> EmptyString.
Proof.
  intros Hs Hbase.
  assert (Hb : API_BASE_URL P = base /\ base <> EmptyString).
  { unfold API_BASE_URL, or_else.
    destruct Hbase as [[-> Hne]|[[-> | ->] ->]]; [|done|done].
    by rewrite (nonempty_eqb base Hne). }
  destruct Hb as [Hb Hne]. rewrite <- Hb at 1 2.
  split; [by rewrite (run_sent _ _ _ _ _ Hs)|].
  split; [|done]. rewrite upload_run. by destruct net.
Qed.

Lemma requests_go_to_the_configured_base_url_witness :
  map url (sent (snd (api_get SampleApp.hosted Silent "/user/datasets" None fresh)))
  = ["https://api.example.org/v1/user/datasets"]
  /\ map url (sent (snd (uploadFile SampleApp.hosted Silent "/user/datasets"
                           Sample.csv None fresh)))
     = ["https://api.example.org/v1/user/datasets"]
  /\ API_BASE_URL SampleApp.hosted = "https://api.example.org/v1"
  /\ "https://api.example.org/v1" <> EmptyString.
Proof.
  refine (requests_go_to_the_configured_base_url SampleApp.hosted Silent
            "/user/datasets" (with_method None "GET") Sample.csv None None
            "https://api.example.org/v1" eq_refl _).
  left. split; [reflexivity|discriminate].
Defined.

(** * The auth hook *)

Ltac run_task :=
  cbv [Auth.login Auth.logout Auth.checkAuth Analyzer.handleAnalyze
       Dashboard.fetchDashboardData promise_all2
       task_bind task_finally task_try task_throw task_ret task_lift set call].

Section AuthRuns.

Context (P : Platform) (net : network).

Lemma login_run email password s :
  Auth.login P net email password s
  = match fst (api_post P net "/auth/login" (credentials_of email password) None fresh) with
    | Resolved v =>
        (Resolved tt,
         Auth.mkState v false JNull (Auth.navigations s ++ ["/dashboard"])%list
           (Auth.console s))
    | Rejected err =>
        (Rejected err,
         Auth.mkState (Auth.user s) false (Auth.failure_message err "Login failed")
           (Auth.navigations s) (Auth.console s))
    | Pending =>
        (Pending,
         Auth.mkState (Auth.user s) true JNull (Auth.navigations s) (Auth.console s))
    end.
Proof.
  run_task. unfold credentials_of.
  by destruct (fst (api_post P net _ _ None fresh)).
Qed.


Lemma checkAuth_run s :
  Auth.checkAuth P net s
  = match fst (api_get P net "/auth/me" None fresh) with
    | Resolved v =>
        (Resolved tt,
         Auth.mkState v false (Auth.error s) (Auth.navigations s) (Auth.console s))
    | Rejected _ =>
        (Resolved tt,
         Auth.mkState JNull false (Auth.error s) (Auth.navigations s) (Auth.console s))
    | Pending => (Pending, s)
    end.
Proof.
  run_task. by destruct (fst (api_get P net _ None fresh)).
Qed.

End AuthRuns.

Lemma normalized_status e : status (normalized e) = 0 \/ status (normalized e) = 408.
Proof.
  destruct e as [name message|v]; simpl; [|by left].
  destruct (String.eqb name "AbortError"); [by right|by left].
Qed.

(** The errors the client makes up itself carry no [data], so no message. *)
Lemma failure_message_of_normalized e fallback :
  Auth.failure_message (Api (normalized e)) fallback = JString fallback.
Proof.
  destruct e as [name message|v]; simpl; [|reflexivity].
  by destruct (String.eqb name "AbortError").
Qed.

(** X12.  A login ends in one of three ways.  The client resolved with [v]:
    then [v] is the user, the error is cleared, loading is switched off and
    the page goes to [/dashboard].  Or the client rejected with an
    [ApiError]: the login rejects with that same error, the user and the
    route are left alone, loading is switched off, and the error shown is
    what the error's detail holds under [message] when that is truthy, and
    [Login failed] otherwise; the text kept for exceptions that are not an
    [ApiError] is never the branch taken.  Or the response arrived in time
    and its body never ends: then the login waits for ever with loading
    switched on. *)
Theorem login_ends_with_user_message_or_stalled_body P net email password s :
  (exists v,
     fst (api_post P net "/auth/login" (credentials_of email password) None fresh)
     = Resolved v
     /\ Auth.login P net email password s
        = (Resolved tt,
           Auth.mkState v false JNull (Auth.navigations s ++ ["/dashboard"])%list
             (Auth.console s)))
  \/ (exists e shown,
     fst (api_post P net "/auth/login" (credentials_of email password) None fresh)
     = Rejected (Api e)
     /\ Auth.login P net email password s
        = (Rejected (Api e),
           Auth.mkState (Auth.user s) false shown (Auth.navigations s) (Auth.console s))
     /\ (shown = JString "Login failed"
           /\ truthy (optional_prop (data e) "message") = false
         \/ optional_prop (data e) "message" = Json shown
           /\ truthy (Json shown) = true))
  \/ (fst (api_post P net "/auth/login" (credentials_of email password) None fresh)
      = Pending
      /\ stalls_in_time 30000 net
      /\ Auth.login P net email password s
         = (Pending,
            Auth.mkState (Auth.user s) true JNull (Auth.navigations s) (Auth.console s))).
Proof.
  rewrite login_run. unfold api_post.
  destruct (request_outcome_cases P net "/auth/login"
              (with_method_body None "POST" (credentials_of email password)))
    as [[v H]|[[e H]|[H Hst]]]; rewrite H.
  - left. by exists v.
  - right. left. exists e, (Auth.failure_message (Api e) "Login failed").
    split; [done|]. split; [done|]. unfold Auth.failure_message, or_value.
    destruct (truthy (optional_prop (data e) "message")) eqn:Hm; [right|by left].
    destruct (optional_prop (data e) "message") as [|m]; [done|]. by split.
  - right. right. by repeat split.
Qed.

(** X13.  When no response arrives within the 30000 ms a login waits (the
    network is down, or too slow), the login rejects and the error shown is
    [Login failed]. *)
Theorem login_without_response_shows_login_failed P net email password s :
  match net with Responds t _ => 30000 < t | _ => True end ->
  exists e,
    Auth.login P net email password s
    = (Rejected (Api e),
       Auth.mkState (Auth.user s) false (JString "Login failed") (Auth.navigations s)
         (Auth.console s))
    /\ (status e = 0 \/ status e = 408).
Proof.
  intros Hnet. rewrite login_run. unfold api_post.
  set (options := with_method_body None "POST" (credentials_of email password)).
  assert (Hd : deadline_of options = 30000) by reflexivity.
  destruct (serialized P (body options)) as [e|p] eqn:Hs.
  { rewrite (run_not_serializable _ _ _ _ _ Hs). cbn [fst].
    rewrite failure_message_of_normalized. eexists; split; [done|].
    apply normalized_status. }
  destruct (race (deadline_of options) net) as [H|[(t & r & -> & Ht)|(t & e & -> & Ht)]].
  - rewrite (run_timer_first _ _ _ _ _ Hs H). simpl. eexists; split; [done|]. by right.
  - rewrite Hd in Ht. lia.
  - rewrite (run_fetch_fails _ _ _ _ _ _ Hs Ht). cbn [fst].
    rewrite failure_message_of_normalized. eexists; split; [done|].
    apply normalized_status.
Qed.

Lemma login_without_response_shows_login_failed_witness :
  exists e,
    Auth.login Sample.platform (Fails 10 Sample.failed_to_fetch) "ada@example.org"
      "hunter2" Auth.initial
    = (Rejected (Api e), Auth.mkState JNull false (JString "Login failed") [] [])
    /\ (status e = 0 \/ status e = 408).
Proof.
  exact (login_without_response_shows_login_failed Sample.platform
           (Fails 10 Sample.failed_to_fetch) "ada@example.org" "hunter2" Auth.initial I).
Defined.

(** X14.  When the server answers a login in time with a status outside
    200-299 and a JSON body that holds a truthy value under [message], that
    value is the error shown, and the login rejects with the response's
    status. *)
Theorem login_shows_the_message_of_the_response
    P email password s p t r body_text detail shown :
  JSON_stringify P (credentials_of email password) = inr p ->
  t <= 30000 ->
  ~ (200 <= resp_status r <= 299) ->
  resp_body r = BodyText body_text ->
  JSON_parse P body_text = inr detail ->
  optional_prop (Json detail) "message" = Json shown ->
  truthy (Json shown) = true ->
  Auth.login P (Responds t r) email password s
  = (Rejected (Api (mkApiError (resp_status r) (resp_statusText r) (Json detail))),
     Auth.mkState (Auth.user s) false shown (Auth.navigations s) (Auth.console s)).
Proof.
  intros Hs Ht Hrange Hbody Hparse Hmsg Htruthy.
  assert (Hok : ok r = false).
  { unfold ok. apply andb_false_iff.
    destruct (Z.leb_spec 200 (resp_status r)); [|by left].
    destruct (Z.leb_spec (resp_status r) 299); [lia|by right]. }
  rewrite login_run. unfold api_post.
  rewrite (run_failure_response P "/auth/login" _ t r p); [|done|done|done].
  cbn [fst]. unfold detail_of. rewrite Hbody, Hparse.
  unfold Auth.failure_message, or_value. cbn [data]. by rewrite Hmsg, Htruthy.
Qed.

Lemma login_shows_the_message_of_the_response_witness :
  Auth.login Sample.platform (Responds 120 Sample.unauthorized) "ada@example.org"
    "hunter2" Auth.initial
  = (Rejected (Api (mkApiError 401 "Unauthorized" (Json Sample.invalid_credentials))),
     Auth.mkState JNull false (JString "Invalid credentials") [] []).
Proof.
  refine (login_shows_the_message_of_the_response Sample.platform
            "ada@example.org" "hunter2" Auth.initial _ 120 Sample.unauthorized
            _ Sample.invalid_credentials (JString "Invalid credentials")
            eq_refl _ _ eq_refl eq_refl eq_refl eq_refl).
  - vm_compute. discriminate.
  - simpl. lia.
Defined.



(** X16.  The check made on mount never rejects.  Unless the response to its
    request arrives in time with a body that never ends, it resolves with
    loading switched off (a protected route no longer shows the skeleton),
    the error and the route untouched, and the user set to what the client
    resolved with, or to [null] when the client rejected.  In the excepted
    case the check waits for ever and nothing is set: loading stays as it
    was, switched on since the mount. *)
Theorem checkAuth_resolves_unless_the_body_stalls P net s :
  (forall x, fst (Auth.checkAuth P net s) <> Rejected x)
  /\ (~ stalls_in_time 30000 net ->
      fst (Auth.checkAuth P net s) = Resolved tt
      /\ Auth.isLoading (snd (Auth.checkAuth P net s)) = false
      /\ Auth.error (snd (Auth.checkAuth P net s)) = Auth.error s
      /\ Auth.navigations (snd (Auth.checkAuth P net s)) = Auth.navigations s
      /\ Auth.ProtectedRoute (snd (Auth.checkAuth P net s)) <> Auth.SkeletonPage
      /\ ((exists v, fst (api_get P net "/auth/me" None fresh) = Resolved v
                     /\ Auth.user (snd (Auth.checkAuth P net s)) = v)
          \/ (exists e, fst (api_get P net "/auth/me" None fresh) = Rejected (Api e)
                        /\ Auth.user (snd (Auth.checkAuth P net s)) = JNull)))
  /\ (stalls_in_time 30000 net -> Auth.checkAuth P net s = (Pending, s)).
Proof.
  rewrite checkAuth_run. unfold api_get.
  pose proof (request_pending_iff P net "/auth/me" (with_method None "GET"))
    as Hpending.
  destruct (request_outcome_cases P net "/auth/me" (with_method None "GET"))
    as [[v H]|[[e H]|[H Hst]]]; rewrite H in *; cbn [fst snd].
  - split; [done|]. split.
    + intros _. repeat split; eauto.
      unfold Auth.ProtectedRoute. cbn [Auth.isLoading]. by destruct (negb _).
    + intros Hst. discriminate (proj2 Hpending (conj (ex_intro _ None eq_refl) Hst)).
  - split; [done|]. split; [intros _; simpl; repeat split; eauto|].
    intros Hst. discriminate (proj2 Hpending (conj (ex_intro _ None eq_refl) Hst)).
  - split; [done|]. split; [by intros []|done].
Qed.

Lemma checkAuth_resolves_unless_the_body_stalls_witness :
  Auth.checkAuth Sample.platform (Responds 120 Sample.stalled) Auth.initial
  = (Pending, Auth.initial)
  /\ Auth.ProtectedRoute Auth.initial = Auth.SkeletonPage.
Proof.
  split; [|reflexivity].
  refine (proj2 (proj2 (checkAuth_resolves_unless_the_body_stalls Sample.platform
                          (Responds 120 Sample.stalled) Auth.initial)) _).
  split; [|reflexivity]. vm_compute. discriminate.
Defined.

(** X17.  After the check, a response with a status in 200-299 that arrived
    in time authenticates exactly when the value the client made of it is
    truthy: an empty body, which the client turns into [{}], does (the
    protected pages are shown), while a body holding [null], [false], [0]
    or an empty string does not. *)
Theorem success_response_authenticates_when_truthy P t r s body_text :
  t <= 30000 ->
  200 <= resp_status r <= 299 ->
  resp_body r = BodyText body_text ->
  (body_text = EmptyString ->
     Auth.user (snd (Auth.checkAuth P (Responds t r) s)) = JObject []
     /\ Auth.isAuthenticated (snd (Auth.checkAuth P (Responds t r) s)) = true
     /\ Auth.ProtectedRoute (snd (Auth.checkAuth P (Responds t r) s)) = Auth.Children)
  /\ (forall v, body_text <> EmptyString -> JSON_parse P body_text = inr v ->
     Auth.user (snd (Auth.checkAuth P (Responds t r) s)) = v
     /\ Auth.isAuthenticated (snd (Auth.checkAuth P (Responds t r) s)) = truthy (Json v)
     /\ Auth.ProtectedRoute (snd (Auth.checkAuth P (Responds t r) s))
        = if truthy (Json v) then Auth.Children else Auth.NavigateToLogin).
Proof.
  intros Ht Hrange Hbody. rewrite checkAuth_run. unfold api_get.
  rewrite (run_success_response P "/auth/me" (with_method None "GET") t r None);
    [|done|done|by apply in_range_ok].
  cbn [fst snd]. rewrite Hbody. split.
  - by intros ->.
  - intros v Hne Hparse. rewrite (nonempty_eqb _ Hne), Hparse.
    unfold Auth.ProtectedRoute, Auth.isAuthenticated.
    cbn [fst snd Auth.user Auth.isLoading].
    split; [done|]. split; [done|]. by destruct (truthy (Json v)).
Qed.

Lemma success_response_authenticates_when_truthy_witness :
  Auth.user (snd (Auth.checkAuth Sample.platform (Responds 80 Sample.no_content)
                    Auth.initial)) = JObject []
  /\ Auth.isAuthenticated (snd (Auth.checkAuth Sample.platform
                                  (Responds 80 Sample.no_content) Auth.initial)) = true
  /\ Auth.ProtectedRoute (snd (Auth.checkAuth Sample.platform
                                 (Responds 80 Sample.no_content) Auth.initial))
     = Auth.Children.
Proof.
  refine (proj1 (success_response_authenticates_when_truthy Sample.platform 80
                   Sample.no_content Auth.initial EmptyString _ _ eq_refl) eq_refl).
  - vm_compute. discriminate.
  - simpl. lia.
Defined.

(** * The analyzer page *)

Section AnalyzerRuns.

Context (P : Platform) (net : network) (sampleResult : json).

Lemma analyze_run s :
  Analyzer.handleAnalyze P net sampleResult s
  = match fst (Analyzer.analysis P net s fresh) with
    | Pending =>
        (Pending, Analyzer.setError JNull (Analyzer.setIsAnalyzing true s))
    | Rejected _ => (Resolved tt, sample_shown sampleResult s)
    | Resolved response =>
        match prop response "suggestedCharts" with
        | inl _ => (Resolved tt, sample_shown sampleResult s)
        | inr suggestedCharts =>
            if truthy (optional_prop suggestedCharts "length") then
              match first_of suggestedCharts with
              | inl _ => (Resolved tt, sample_shown sampleResult s)
              | inr chart => (Resolved tt, result_shown response chart s)
              end
            else (Resolved tt, result_shown response (Analyzer.selectedChart s) s)
        end
    end.
Proof.
  run_task.
  destruct (fst (Analyzer.analysis P net s fresh)) as [response|x|]; try reflexivity.
  destruct (prop response "suggestedCharts") as [e|suggestedCharts]; try reflexivity.
  destruct (truthy (optional_prop suggestedCharts "length")); try reflexivity.
  by destruct (first_of suggestedCharts).
Qed.

Lemma analysis_without_file s :
  Analyzer.file s = None ->
  exists options,
    Analyzer.analysis P net s = request P net "/analyzer/upload" options
    /\ deadline_of options = 30000.
Proof.
  intros Hf. unfold Analyzer.analysis, api_post. rewrite Hf. by eexists.
Qed.

(** Once the request has settled the handler resolves, whatever it found. *)
Lemma analyze_ends s :
  fst (Analyzer.analysis P net s fresh) <> Pending ->
  fst (Analyzer.handleAnalyze P net sampleResult s) = Resolved tt
  /\ Analyzer.isAnalyzing (snd (Analyzer.handleAnalyze P net sampleResult s)) = false
  /\ Analyzer.error (snd (Analyzer.handleAnalyze P net sampleResult s)) = JNull.
Proof.
  rewrite analyze_run.
  destruct (fst (Analyzer.analysis P net s fresh)) as [response|x|]; [|done|done].
  intros _. destruct (prop response "suggestedCharts") as [e|charts]; [done|].
  destruct (truthy (optional_prop charts "length")); [|done].
  by destruct (first_of charts).
Qed.

(** While it has not, the handler waits with analyzing switched on. *)
Lemma analyze_waits s :
  fst (Analyzer.analysis P net s fresh) = Pending ->
  fst (Analyzer.handleAnalyze P net sampleResult s) = Pending
  /\ Analyzer.isAnalyzing (snd (Analyzer.handleAnalyze P net sampleResult s)) = true.
Proof.
  rewrite analyze_run. by intros ->.
Qed.

End AnalyzerRuns.

(** X18.  Without a file selected, an analysis never rejects.  Unless the
    response to its request arrives in time with a body that never ends, it
    comes to an end whatever the network does: the handler resolves and
    analyzing is switched off.  It waits, with analyzing switched on, only
    in the excepted case. *)
Theorem analysis_without_a_file_ends_unless_the_body_stalls P net sampleResult s :
  Analyzer.file s = None ->
  (forall x, fst (Analyzer.handleAnalyze P net sampleResult s) <> Rejected x)
  /\ (~ stalls_in_time 30000 net ->
      fst (Analyzer.handleAnalyze P net sampleResult s) = Resolved tt
      /\ Analyzer.isAnalyzing (snd (Analyzer.handleAnalyze P net sampleResult s)) = false
      /\ Analyzer.error (snd (Analyzer.handleAnalyze P net sampleResult s)) = JNull)
  /\ (fst (Analyzer.handleAnalyze P net sampleResult s) = Pending ->
      stalls_in_time 30000 net
      /\ Analyzer.isAnalyzing (snd (Analyzer.handleAnalyze P net sampleResult s)) = true).
Proof.
  intros Hf.
  destruct (analysis_without_file P net s Hf) as (options & Ha & Hd).
  pose proof (request_pending_iff P net "/analyzer/upload" options) as Hpending.
  rewrite Hd, <- Ha in Hpending.
  assert (Hcases : fst (Analyzer.analysis P net s fresh) = Pending
                   \/ fst (Analyzer.analysis P net s fresh) <> Pending).
  { destruct (fst (Analyzer.analysis P net s fresh)); [by right|by right|by left]. }
  destruct Hcases as [Hp|Hp].
  - destruct (analyze_waits P net sampleResult s Hp) as [Hw Hon].
    rewrite Hw. split; [done|]. split; [|by split; [apply Hpending|]].
    intros Hst. by destruct (Hst (proj2 (proj1 Hpending Hp))).
  - destruct (analyze_ends P net sampleResult s Hp) as (He & Hoff & Herr).
    rewrite He. by repeat split.
Qed.

Lemma analysis_without_a_file_ends_unless_the_body_stalls_witness :
  fst (Analyzer.handleAnalyze Sample.platform Silent SampleApp.sampleResult
         Analyzer.initial) = Resolved tt
  /\ Analyzer.isAnalyzing (snd (Analyzer.handleAnalyze Sample.platform Silent
                                  SampleApp.sampleResult Analyzer.initial)) = false
  /\ Analyzer.error (snd (Analyzer.handleAnalyze Sample.platform Silent
                            SampleApp.sampleResult Analyzer.initial)) = JNull.
Proof.
  refine (proj1 (proj2 (analysis_without_a_file_ends_unless_the_body_stalls
                          Sample.platform Silent SampleApp.sampleResult
                          Analyzer.initial eq_refl)) _).
  simpl. tauto.
Defined.

(** X19.  With a file selected, an analysis ends exactly when the network
    produces something whose body can be read to its end or fails to be
    read: while the network produces nothing, or delivers a response whose
    body never ends, the handler stays pending with analyzing switched on,
    no timeout ending the wait, however late. *)
Theorem analysis_of_a_file_waits_for_the_network P net sampleResult s f :
  Analyzer.file s = Some f ->
  (net = Silent \/ stalls net ->
     fst (Analyzer.handleAnalyze P net sampleResult s) = Pending
     /\ Analyzer.isAnalyzing (snd (Analyzer.handleAnalyze P net sampleResult s)) = true)
  /\ (net <> Silent -> ~ stalls net ->
     fst (Analyzer.handleAnalyze P net sampleResult s) = Resolved tt
     /\ Analyzer.isAnalyzing (snd (Analyzer.handleAnalyze P net sampleResult s)) = false).
Proof.
  intros Hf.
  assert (Hup : Analyzer.analysis P net s = uploadFile P net "/analyzer/upload" f None).
  { unfold Analyzer.analysis. by rewrite Hf. }
  split.
  - intros Hnet. apply analyze_waits. rewrite Hup, upload_run.
    destruct Hnet as [->|Hst]; [done|].
    destruct net as [t r|t e|]; simpl in Hst; [|done|done]. cbn [fst]. by rewrite Hst.
  - intros Hnet Hst.
    destruct (analyze_ends P net sampleResult s) as (He & Hoff & _); [|done].
    rewrite Hup, upload_run.
    destruct net as [t r|t e|]; [| |done]; cbn [fst]; [|done].
    simpl in Hst. destruct (resp_body r) as [b|e|]; [| |done].
    + destruct (ok r); [|done]. by destruct (JSON_parse P b).
    + by destruct (ok r).
Qed.

Lemma analysis_of_a_file_waits_for_the_network_witness :
  fst (Analyzer.handleAnalyze Sample.platform (Responds 120 Sample.stalled)
         SampleApp.sampleResult
         (Analyzer.handleFileSelect Sample.csv Analyzer.initial)) = Pending
  /\ Analyzer.isAnalyzing
       (snd (Analyzer.handleAnalyze Sample.platform (Responds 120 Sample.stalled)
               SampleApp.sampleResult
               (Analyzer.handleFileSelect Sample.csv Analyzer.initial))) = true.
Proof.
  refine (proj1 (analysis_of_a_file_waits_for_the_network Sample.platform
                   (Responds 120 Sample.stalled) SampleApp.sampleResult
                   (Analyzer.handleFileSelect Sample.csv Analyzer.initial)
                   Sample.csv eq_refl) _).
  right. reflexivity.
Defined.

(** X20.  When the request of an analysis fails, by an exception of [fetch]
    or by a response with a status outside 200-299 (its body read to the end,
    or failing to be read), the page shows the sample:
    the result is [sampleResult], the chart is [bar], no error is set and the
    toast says that sample data was loaded, exactly as when the user asks
    for the sample with [loadSampleData]. *)
Theorem failed_analysis_shows_the_sample P net sampleResult s :
  ((exists t e, net = Fails t e)
   \/ (exists t r, net = Responds t r /\ ~ (200 <= resp_status r <= 299)
                   /\ resp_body r <> BodyStalls)) ->
  Analyzer.handleAnalyze P net sampleResult s
  = (Resolved tt, sample_shown sampleResult s)
  /\ sample_shown sampleResult s
     = Analyzer.loadSampleData sampleResult
         (Analyzer.setError JNull (Analyzer.setIsAnalyzing false s)).
Proof.
  intros Hnet. split; [|reflexivity]. rewrite analyze_run.
  assert (Hrej : exists x, fst (Analyzer.analysis P net s fresh) = Rejected x).
  { destruct (Analyzer.file s) as [f|] eqn:Hf.
    - unfold Analyzer.analysis. rewrite Hf, upload_run.
      destruct Hnet as [(t & e & ->)|(t & r & -> & Hrange & Hread)]; cbn [fst];
        [by eauto|].
      assert (Hok : ok r = false).
      { destruct (ok r) eqn:Hok; [|done].
        apply andb_true_iff in Hok as [Hlo%Z.leb_le Hhi%Z.leb_le]. lia. }
      rewrite Hok. destruct (resp_body r); [by eauto|by eauto|done].
    - destruct (analysis_without_file P net s Hf) as (options & -> & _).
      destruct (request_outcome_cases P net "/analyzer/upload" options)
        as [[v H]|[[e H]|[H Hst]]]; [|by eauto|].
      + destruct (resolved_needs_success_status P net "/analyzer/upload" options v H)
          as (t & r & -> & Hrange).
        destruct Hnet as [(t' & e & [=])|(t' & r' & [= <- <-] & Hout & _)]. lia.
      + destruct Hnet as [(t & e & ->)|(t & r & -> & _ & Hread)]; [done|].
        by destruct Hst. }
  destruct Hrej as [x ->]. reflexivity.
Qed.

Lemma failed_analysis_shows_the_sample_witness :
  Analyzer.handleAnalyze Sample.platform (Fails 10 Sample.failed_to_fetch)
    SampleApp.sampleResult (Analyzer.handleFileSelect Sample.csv Analyzer.initial)
  = (Resolved tt,
     sample_shown SampleApp.sampleResult
       (Analyzer.handleFileSelect Sample.csv Analyzer.initial)).
Proof.
  refine (proj1 (failed_analysis_shows_the_sample Sample.platform
                   (Fails 10 Sample.failed_to_fetch) SampleApp.sampleResult
                   (Analyzer.handleFileSelect Sample.csv Analyzer.initial) _)).
  left. exists 10, Sample.failed_to_fetch. reflexivity.
Defined.

(** X21.  When the request of an analysis resolves with an object, that
    object becomes the result; the chart becomes the first entry of its
    [suggestedCharts] when that is a non-empty array, and stays the one
    selected when [suggestedCharts] is missing or an empty array. *)
Theorem analysis_selects_the_first_suggested_chart
    P net sampleResult s fields :
  fst (Analyzer.analysis P net s fresh) = Resolved (JObject fields) ->
  (forall c rest, field "suggestedCharts" fields = Json (JArray (c :: rest)) ->
     Analyzer.handleAnalyze P net sampleResult s
     = (Resolved tt, result_shown (JObject fields) (Json c) s))
  /\ (field "suggestedCharts" fields = undefined
      \/ field "suggestedCharts" fields = Json (JArray []) ->
     Analyzer.handleAnalyze P net sampleResult s
     = (Resolved tt, result_shown (JObject fields) (Analyzer.selectedChart s) s)).
Proof.
  intros Hres. rewrite analyze_run, Hres. cbn [prop]. split.
  - by intros c rest ->.
  - by intros [-> | ->].
Qed.

Lemma analysis_selects_the_first_suggested_chart_witness :
  Analyzer.handleAnalyze SampleApp.platform
    (Responds 900 (SampleApp.respond 200 "OK" SampleApp.charts))
    SampleApp.sampleResult Analyzer.initial
  = (Resolved tt,
     result_shown SampleApp.charts (Json (JString "line")) Analyzer.initial).
Proof.
  exact (proj1 (analysis_selects_the_first_suggested_chart SampleApp.platform
                  (Responds 900 (SampleApp.respond 200 "OK" SampleApp.charts))
                  SampleApp.sampleResult Analyzer.initial _ eq_refl)
           (JString "line") [JString "pie"] eq_refl).
Defined.

(** X22.  When the request of an analysis resolves with [null] (a response
    with a status in 200-299 whose body is the text [null]), reading
    [suggestedCharts] throws inside the [try], and the page ends up showing
    the sample as after a failure. *)
Theorem null_analysis_shows_the_sample P net sampleResult s :
  fst (Analyzer.analysis P net s fresh) = Resolved JNull ->
  Analyzer.handleAnalyze P net sampleResult s
  = (Resolved tt, sample_shown sampleResult s).
Proof.
  intros Hres. by rewrite analyze_run, Hres.
Qed.

Lemma null_analysis_shows_the_sample_witness :
  Analyzer.handleAnalyze SampleApp.platform
    (Responds 900 (mkResponse 200 "OK" (BodyText "null")))
    SampleApp.sampleResult (Analyzer.handleFileSelect Sample.csv Analyzer.initial)
  = (Resolved tt,
     sample_shown SampleApp.sampleResult
       (Analyzer.handleFileSelect Sample.csv Analyzer.initial)).
Proof.
  exact (null_analysis_shows_the_sample SampleApp.platform
           (Responds 900 (mkResponse 200 "OK" (BodyText "null")))
           SampleApp.sampleResult
           (Analyzer.handleFileSelect Sample.csv Analyzer.initial) eq_refl).
Defined.

(** * The dashboard page *)

Section DashboardRuns.

Context (P : Platform) (net1 net2 : network) (plus : value -> value -> value).

Lemma dashboard_run s :
  Dashboard.fetchDashboardData P net1 net2 plus s
  = if is_pending (fst (api_get P net1 "/user/datasets" None fresh))
       || is_pending (fst (api_get P net2 "/user/analysis" None fresh))
    then
      (Pending,
       Dashboard.mkState (Dashboard.stats s) (Dashboard.datasets s)
         (Dashboard.analyses s) true JNull)
    else
      (Resolved tt,
       Dashboard.mkState
         (match prop (list_or_empty (fst (api_get P net1 "/user/datasets" None fresh)))
                  "length",
                prop (list_or_empty (fst (api_get P net2 "/user/analysis" None fresh)))
                  "length" with
          | inr n, inr m =>
              Some {| Dashboard.totalDatasets := n;
                      Dashboard.totalAnalyses := m;
                      Dashboard.recentActivity := plus n m |}
          | _, _ => Dashboard.stats s
          end)
         (list_or_empty (fst (api_get P net1 "/user/datasets" None fresh)))
         (list_or_empty (fst (api_get P net2 "/user/analysis" None fresh)))
         false JNull).
Proof.
  run_task. unfold try_catch, ret, api_get in *.
  destruct (request P net1 "/user/datasets" _ fresh) as [[d|x1|] w1];
    destruct (request P net2 "/user/analysis" _ fresh) as [[a|x2|] w2];
    cbn [fst snd list_or_empty is_pending orb]; try reflexivity;
    repeat match goal with
           | |- context [ prop ?j "length" ] => destruct (prop j "length")
           end; reflexivity.
Qed.

Lemma get_pending_iff endpoint (net : network) :
  is_pending (fst (api_get P net endpoint None fresh)) = true
  <-> stalls_in_time 30000 net.
Proof.
  unfold api_get.
  pose proof (request_pending_iff P net endpoint (with_method None "GET")) as Hp.
  destruct (fst (request P net endpoint (with_method None "GET") fresh)); simpl;
    (split; [intros Ht; try done; by apply Hp|]);
    intros Hst; try done;
    discriminate (proj2 Hp (conj (ex_intro _ None eq_refl) Hst)).
Qed.

End DashboardRuns.

(** X23.  Loading the dashboard never rejects and never reports a failure:
    whatever the network does with the two requests the error is left at
    [null], the message the page keeps for a failed load being never set.
    Unless one of the two responses arrives in time with a body that never
    ends, the handler resolves with loading switched off, each list being
    what its request resolved with, or the empty list when it rejected.  In
    the excepted case it waits for ever with loading switched on and both
    lists as they were. *)
Theorem dashboard_never_reports_a_failure P net1 net2 plus s :
  (forall x, fst (Dashboard.fetchDashboardData P net1 net2 plus s) <> Rejected x)
  /\ Dashboard.error (snd (Dashboard.fetchDashboardData P net1 net2 plus s)) = JNull
  /\ (~ stalls_in_time 30000 net1 -> ~ stalls_in_time 30000 net2 ->
      fst (Dashboard.fetchDashboardData P net1 net2 plus s) = Resolved tt
      /\ Dashboard.isLoading (snd (Dashboard.fetchDashboardData P net1 net2 plus s))
         = false
      /\ Dashboard.datasets (snd (Dashboard.fetchDashboardData P net1 net2 plus s))
         = list_or_empty (fst (api_get P net1 "/user/datasets" None fresh))
      /\ Dashboard.analyses (snd (Dashboard.fetchDashboardData P net1 net2 plus s))
         = list_or_empty (fst (api_get P net2 "/user/analysis" None fresh)))
  /\ (stalls_in_time 30000 net1 \/ stalls_in_time 30000 net2 ->
      Dashboard.fetchDashboardData P net1 net2 plus s
      = (Pending,
         Dashboard.mkState (Dashboard.stats s) (Dashboard.datasets s)
           (Dashboard.analyses s) true JNull)).
Proof.
  rewrite dashboard_run.
  pose proof (get_pending_iff P "/user/datasets" net1) as H1.
  pose proof (get_pending_iff P "/user/analysis" net2) as H2.
  destruct (is_pending (fst (api_get P net1 "/user/datasets" None fresh)));
    destruct (is_pending (fst (api_get P net2 "/user/analysis" None fresh)));
    cbn [orb fst snd Dashboard.error Dashboard.isLoading Dashboard.datasets
         Dashboard.analyses];
    (split; [done|]); (split; [done|]); split; try done.
  - intros Hn1. by destruct (Hn1 (proj1 H1 eq_refl)).
  - intros Hn1. by destruct (Hn1 (proj1 H1 eq_refl)).
  - intros _ Hn2. by destruct (Hn2 (proj1 H2 eq_refl)).
  - intros [Hst|Hst]; [by apply H1 in Hst|by apply H2 in Hst].
Qed.

Lemma dashboard_never_reports_a_failure_witness :
  Dashboard.fetchDashboardData Sample.platform (Responds 120 Sample.empty_list)
    (Responds 150 Sample.stalled) SampleApp.plus Dashboard.initial
  = (Pending, Dashboard.mkState None (JArray []) (JArray []) true JNull).
Proof.
  refine (proj2 (proj2 (proj2 (dashboard_never_reports_a_failure Sample.platform
                                 (Responds 120 Sample.empty_list)
                                 (Responds 150 Sample.stalled) SampleApp.plus
                                 Dashboard.initial))) _).
  right. split; [|reflexivity]. vm_compute. discriminate.
Defined.

(** X24.  When the request for the datasets rejects and the one for the
    analyses resolves with an array, the dashboard shows no dataset, all the
    analyses, and counts 0 datasets: one failed request does not hide the
    other list. *)
Theorem dashboard_counts_a_failed_list_as_empty P net1 net2 plus s x items :
  fst (api_get P net1 "/user/datasets" None fresh) = Rejected x ->
  fst (api_get P net2 "/user/analysis" None fresh) = Resolved (JArray items) ->
  Dashboard.fetchDashboardData P net1 net2 plus s
  = (Resolved tt,
     Dashboard.mkState
       (Some {| Dashboard.totalDatasets := Json (JNum 0);
                Dashboard.totalAnalyses := Json (JNum (Z.of_nat (length items)));
                Dashboard.recentActivity :=
                  plus (Json (JNum 0)) (Json (JNum (Z.of_nat (length items)))) |})
       (JArray []) (JArray items) false JNull).
Proof.
  intros H1 H2. by rewrite dashboard_run, H1, H2.
Qed.

Lemma dashboard_counts_a_failed_list_as_empty_witness :
  Dashboard.fetchDashboardData SampleApp.platform (Fails 10 Sample.failed_to_fetch)
    (Responds 120 (SampleApp.respond 200 "OK" SampleApp.two_datasets))
    SampleApp.plus Dashboard.initial
  = (Resolved tt,
     Dashboard.mkState
       (Some {| Dashboard.totalDatasets := Json (JNum 0);
                Dashboard.totalAnalyses := Json (JNum 2);
                Dashboard.recentActivity := Json (JNum 2) |})
       (JArray []) SampleApp.two_datasets false JNull).
Proof.
  exact (dashboard_counts_a_failed_list_as_empty SampleApp.platform
           (Fails 10 Sample.failed_to_fetch)
           (Responds 120 (SampleApp.respond 200 "OK" SampleApp.two_datasets))
           SampleApp.plus Dashboard.initial _ _ eq_refl eq_refl).
Defined.

(** X25.  When the request for the datasets resolves with [null] (a response
    with a status in 200-299 whose body is the text [null]) and the other
    request settles, reading the [length] of [null] throws inside the [try]:
    the datasets are set to [null], the statistics stay as they were, and
    still no error is set. *)
Theorem dashboard_null_list_leaves_the_stats_unset P net1 net2 plus s :
  fst (api_get P net1 "/user/datasets" None fresh) = Resolved JNull ->
  ~ stalls_in_time 30000 net2 ->
  Dashboard.stats (snd (Dashboard.fetchDashboardData P net1 net2 plus s))
  = Dashboard.stats s
  /\ Dashboard.datasets (snd (Dashboard.fetchDashboardData P net1 net2 plus s)) = JNull
  /\ Dashboard.error (snd (Dashboard.fetchDashboardData P net1 net2 plus s)) = JNull.
Proof.
  intros H1 Hn2. rewrite dashboard_run, H1.
  pose proof (get_pending_iff P "/user/analysis" net2) as H2.
  destruct (is_pending (fst (api_get P net2 "/user/analysis" None fresh)));
    [by destruct (Hn2 (proj1 H2 eq_refl))|done].
Qed.

Lemma dashboard_null_list_leaves_the_stats_unset_witness :
  Dashboard.stats
    (snd (Dashboard.fetchDashboardData SampleApp.platform
            (Responds 120 (mkResponse 200 "OK" (BodyText "null"))) Silent
            SampleApp.plus Dashboard.initial)) = None
  /\ Dashboard.datasets
       (snd (Dashboard.fetchDashboardData SampleApp.platform
               (Responds 120 (mkResponse 200 "OK" (BodyText "null"))) Silent
               SampleApp.plus Dashboard.initial)) = JNull
  /\ Dashboard.error
       (snd (Dashboard.fetchDashboardData SampleApp.platform
               (Responds 120 (mkResponse 200 "OK" (BodyText "null"))) Silent
               SampleApp.plus Dashboard.initial)) = JNull.
Proof.
  refine (dashboard_null_list_leaves_the_stats_unset SampleApp.platform
            (Responds 120 (mkResponse 200 "OK" (BodyText "null"))) Silent
            SampleApp.plus Dashboard.initial eq_refl _).
  simpl. tauto.
Defined.
